(** * xhttp: a wrapper around net/http's client

    The repository holds two versions of the package:
    - [src/xhttp.go], with the methods [GET], [POST], [Do], [Send] and
      [DownloadFile] (module [DoVariant] below);
    - the Go file kept after the make rules in [src/Makefile], with the
      methods [Get], [Post], [SendRaw], [Send] and [DownloadFile]
      (module [SendRawVariant] below).

    Both declare the same struct types, which are declared once here.
    The functions of each file are embedded separately, each from its own
    text, so that the two can be compared.

    Conventions of the embedding.
    - A Go [string] is a [string]; a [[]byte] is a [list byte].
    - [time.Duration] and [int] are integers [Z]; the package does no
      arithmetic on them besides the constant products of its defaults.
    - A Go map is an [option (gmap _ _)]: [None] is the nil map, on which
      [len] is 0, reads find nothing and an assignment panics.
    - A pointer to a struct that the code dereferences without a test is
      the struct itself; a pointer the code tests against nil is an
      [option].
    - A Go result pair [(v, err)] is a pair of options.
    - What the package calls in the Go standard library is not part of the
      repository.  Its pure functions are the fields of [NetLib], its
      operations on the outside world (network, body streams, file system)
      the fields of [Host]; the general statements below hold for all of
      them, and [Sim] is one instance on which the package can be run. *)

From Stdlib Require Import ZArith.
From Stdlib.Strings Require Import Byte Ascii String.
From stdpp Require Import base option list sorting gmap strings.

Local Open Scope Z_scope.

(** ** Values and panics *)

(** Go's [error] values, known by their message. *)
Definition error : Type := string.

(** A computation either completes or panics. *)
Inductive outcome (A : Type) : Type :=
| Done (a : A)
| Panic (why : string).
Arguments Done {A} a.
Arguments Panic {A} why.

#[global] Instance outcome_ret : MRet outcome := @Done.
#[global] Instance outcome_bind : MBind outcome :=
  fun A B f m => match m with Done a => f a | Panic why => Panic why end.

Definition nil_map_assignment : string := "assignment to entry in nil map".
Definition nil_dereference : string :=
  "invalid memory address or nil pointer dereference".

(** ** Maps from strings to lists of strings: http.Header and url.Values *)

Abbreviation http_Header := (option (gmap string (list string))).
Abbreviation url_Values := (option (gmap string (list string))).

(** [make(http.Header)], [make(url.Values)] *)
Definition make_map : option (gmap string (list string)) := Some ∅.

(** [len(m)] *)
Definition len (m : option (gmap string (list string))) : nat :=
  match m with
  | None => 0%nat
  | Some g => size g
  end.

(** ** The struct types of the package (the same in both files) *)

Module Request.
Record t : Type := mk {
  Method : string;
  BaseURL : string;
  Body : list byte;
  Header : http_Header;
  Param : url_Values
}.
Definition with_Header (r : t) (h : http_Header) : t :=
  mk (Method r) (BaseURL r) (Body r) h (Param r).
End Request.

Module Response.
Record t : Type := mk {
  StatusCode : Z;
  Status : string;
  Body : list byte;
  Headers : http_Header
}.
End Response.

Module ClientConfig.
Record t : Type := mk {
  Timeout : Z;
  DialTimeout : Z;
  KeepAlive : Z;
  IdleConnTimeout : Z;
  TLSHanshakeTimeout : Z;
  ExpectContinueTimeout : Z;
  MaxIdleConns : Z;
  SkipTLSVerify : bool;
  IncludeRootCA : bool
}.
End ClientConfig.

(** ** The standard library's types, as far as the package fills or reads
       them *)

Module tls_Config.
Record t : Type := mk { InsecureSkipVerify : bool }.
End tls_Config.

Module net_Dialer.
Record t : Type := mk { Timeout : Z; KeepAlive : Z }.
End net_Dialer.

(** The one proxy function the package installs. *)
Inductive proxy_func : Type := http_ProxyFromEnvironment.

Module http_Transport.
(** [DialContext] is the method value of a dialer, kept as that dialer. *)
Record t : Type := mk {
  Proxy : proxy_func;
  DialContext : net_Dialer.t;
  IdleConnTimeout : Z;
  TLSHandshakeTimeout : Z;
  ExpectContinueTimeout : Z;
  MaxIdleConns : Z;
  TLSClientConfig : tls_Config.t
}.
End http_Transport.

Module http_Client.
Record t : Type := mk { Timeout : Z; Transport : http_Transport.t }.
End http_Client.

Module Client.
Record t : Type := mk { HTTPClient : http_Client.t }.
End Client.

(** A request of net/http, as [http.NewRequest] makes it. *)
Module http_Request.
Record t : Type := mk {
  Method : string;
  URL : string;
  Header : http_Header;
  Body : list byte
}.
Definition with_Header (r : t) (h : http_Header) : t :=
  mk (Method r) (URL r) h (Body r).
End http_Request.

(** A body stream ([io.ReadCloser]) is a handle into the outside world. *)
Definition ReadCloser : Type := nat.

(** A response of net/http. *)
Module http_Response.
Record t : Type := mk {
  StatusCode : Z;
  Status : string;
  Header : http_Header;
  Body : ReadCloser
}.
End http_Response.

(** ** The standard library *)

(** Pure functions of net/http, net/url and net/textproto.
    [http_NewRequest method url body] stands for
    [http.NewRequest(method, url, bytes.NewBuffer(body))], which returns a
    request or an error, never both and never neither. *)
Class NetLib : Type := {
  http_NewRequest : string -> string -> list byte -> http_Request.t + error;
  url_Values_Encode : url_Values -> string;
  textproto_CanonicalMIMEHeaderKey : string -> string
}.

(** Operations on the outside world, whose state has type [E]. *)
Class Host (E : Type) : Type := {
  http_Client_Do :
    http_Client.t -> http_Request.t -> E ->
    (option http_Response.t * option error) * E;
  ioutil_ReadAll : ReadCloser -> E -> (list byte * option error) * E;
  io_Closer_Close : ReadCloser -> E -> option error * E;
  ioutil_WriteFile : string -> list byte -> Z -> E -> option error * E
}.

(** ** Header.Set and Header.Get of net/http *)

Section HeaderOps.
Context {L : NetLib}.

(** [h.Set(key, value)]: the entry of the canonical key becomes the single
    value; assigning into the nil map panics. *)
Definition Header_Set (h : http_Header) (key value : string)
  : outcome http_Header :=
  match h with
  | None => Panic nil_map_assignment
  | Some g => Done (Some (<[textproto_CanonicalMIMEHeaderKey key := [value]]> g))
  end.

(** [h.Get(key)]: the first value of the canonical key, or the empty
    string. *)
Definition Header_Get (h : http_Header) (key : string) : string :=
  match h with
  | None => EmptyString
  | Some g =>
      match g !! textproto_CanonicalMIMEHeaderKey key with
      | Some (v :: _) => v
      | _ => EmptyString
      end
  end.
End HeaderOps.

(** ** Programs that act on the outside world *)

(** The calls a program makes to the host, in the order it makes them. *)
Inductive Call : Type :=
| CallDo (c : http_Client.t) (req : http_Request.t)
| CallReadAll (body : ReadCloser)
| CallClose (body : ReadCloser)
| CallWriteFile (name : string) (data : list byte) (perm : Z).

Record World (E : Type) : Type := mkWorld {
  ext : E;
  journal : list Call
}.
Arguments mkWorld {E} ext journal.
Arguments ext {E} w.
Arguments journal {E} w.

Definition Go (E A : Type) : Type := World E -> outcome A * World E.

Definition ret {E A} (a : A) : Go E A := fun w => (Done a, w).

Definition panic {E A} (why : string) : Go E A := fun w => (Panic why, w).

Definition bind {E A B} (m : Go E A) (k : A -> Go E B) : Go E B :=
  fun w =>
    match m w with
    | (Done a, w1) => k a w1
    | (Panic why, w1) => (Panic why, w1)
    end.

(** [defer d] in a function whose remaining statements are [body]: [d] runs
    when [body] has returned or panicked, and its own result is dropped. *)
Definition defer {E A} (d : Go E unit) (body : Go E A) : Go E A :=
  fun w =>
    let (r, w1) := body w in
    match d w1 with
    | (Done _, w2) => (r, w2)
    | (Panic why, w2) => (Panic why, w2)
    end.

(** A pure computation that may panic, run inside a program. *)
Definition lift {E A} (o : outcome A) : Go E A := fun w => (o, w).

Declare Scope go_scope.
Delimit Scope go_scope with go.
Notation "x <~ m ;; k" := (bind m (fun x => k))
  (at level 100, m at next level, right associativity) : go_scope.

Section HostCalls.
Context {E : Type} {H : Host E}.

Definition log (c : Call) (e : E) (w : World E) : World E :=
  mkWorld e (journal w ++ [c]).

(** [c.Do(req)] on the client of net/http *)
Definition HTTPClient_Do (c : http_Client.t) (req : http_Request.t)
  : Go E (option http_Response.t * option error) :=
  fun w =>
    let (r, e) := http_Client_Do c req (ext w) in
    (Done r, log (CallDo c req) e w).

(** [ioutil.ReadAll(body)] *)
Definition ReadAll (body : ReadCloser) : Go E (list byte * option error) :=
  fun w =>
    let (r, e) := ioutil_ReadAll body (ext w) in
    (Done r, log (CallReadAll body) e w).

(** [body.Close()], whose error the package never looks at *)
Definition Close (body : ReadCloser) : Go E unit :=
  fun w =>
    let (_, e) := io_Closer_Close body (ext w) in
    (Done tt, log (CallClose body) e w).

(** [ioutil.WriteFile(name, data, perm)] *)
Definition WriteFile (name : string) (data : list byte) (perm : Z)
  : Go E (option error) :=
  fun w =>
    let (r, e) := ioutil_WriteFile name data perm (ext w) in
    (Done r, log (CallWriteFile name data perm) e w).
End HostCalls.

(** ** The time package's units, in nanoseconds *)

Definition time_Nanosecond : Z := 1.
Definition time_Microsecond : Z := 1000 * time_Nanosecond.
Definition time_Millisecond : Z := 1000 * time_Microsecond.
Definition time_Second : Z := 1000 * time_Millisecond.

(** An integer literal written with a leading 0 is in base 8. *)
Definition octal (digits : list Z) : Z :=
  fold_left (fun acc d => 8 * acc + d) digits 0.

(** [http.MethodGet], [http.MethodPost] *)
Definition http_MethodGet : string := "GET".
Definition http_MethodPost : string := "POST".

(** ** src/xhttp.go *)

Module DoVariant.

(** The defaults. *)
Definition DefaultClientTimeout : Z := 30 * time_Second.
Definition DefaultDialTimeout : Z := 10 * time_Second.
Definition DefaultKeepAlive : Z := 30 * time_Second.
Definition DefaultIdleConnTimeout : Z := 90 * time_Second.
Definition DefaultTLSHandshakeTimeout : Z := 10 * time_Second.
Definition DefaultExpectContinueTimeout : Z := 1 * time_Second.
Definition DefaultMaxIdleConns : Z := 100.

Definition createClient (cfg : ClientConfig.t) : Client.t :=
  let tlsConfig :=
    tls_Config.mk (ClientConfig.SkipTLSVerify cfg) in
  let transport :=
    http_Transport.mk
      http_ProxyFromEnvironment
      (net_Dialer.mk (ClientConfig.DialTimeout cfg)
                     (ClientConfig.KeepAlive cfg))
      (ClientConfig.IdleConnTimeout cfg)
      (ClientConfig.TLSHanshakeTimeout cfg)
      (ClientConfig.ExpectContinueTimeout cfg)
      (ClientConfig.MaxIdleConns cfg)
      tlsConfig in
  let client :=
    Client.mk (http_Client.mk (ClientConfig.Timeout cfg) transport) in
  client.

Definition DefaultClientConfig : ClientConfig.t :=
  ClientConfig.mk
    DefaultClientTimeout
    DefaultDialTimeout
    DefaultKeepAlive
    DefaultIdleConnTimeout
    DefaultTLSHandshakeTimeout
    DefaultExpectContinueTimeout
    DefaultMaxIdleConns
    false
    false.

Definition NewClient : Client.t := createClient DefaultClientConfig.

Definition NewClientWithConfig (cfg : ClientConfig.t) : Client.t :=
  createClient cfg.

Definition NewRequest (m u : string) (b : list byte) : Request.t :=
  Request.mk m u b make_map make_map.

Section WithNetLib.
Context {L : NetLib}.

Definition SetContentTypeJSON (r : Request.t) : outcome Request.t :=
  let r :=
    match Request.Header r with
    | None => Request.with_Header r make_map
    | Some _ => r
    end in
  h ← Header_Set (Request.Header r) "Content-Type" "application/json";
  mret (Request.with_Header r h).

Definition SetContentType (r : Request.t) (value : string)
  : outcome Request.t :=
  let r :=
    match Request.Header r with
    | None => Request.with_Header r make_map
    | Some _ => r
    end in
  h ← Header_Set (Request.Header r) "Content-Type" value;
  mret (Request.with_Header r h).

Definition SetAuthorization (r : Request.t) (value : string)
  : outcome Request.t :=
  let r :=
    match Request.Header r with
    | None => Request.with_Header r make_map
    | Some _ => r
    end in
  h ← Header_Set (Request.Header r) "Authorization" value;
  mret (Request.with_Header r h).

Definition buildRequest (c : Client.t) (req : Request.t)
  : option http_Request.t * option error :=
  let url := Request.BaseURL req in
  let url :=
    if negb (len (Request.Param req) =? 0)%nat
    then String.concat EmptyString
           [Request.BaseURL req; "?"; url_Values_Encode (Request.Param req)]
    else url in
  match http_NewRequest (Request.Method req) url (Request.Body req) with
  | inr err => (None, Some err)
  | inl r =>
      let r :=
        if negb (len (Request.Header req) =? 0)%nat
        then http_Request.with_Header r (Request.Header req)
        else r in
      (Some r, None)
  end.
End WithNetLib.

Section WithHost.
Context {L : NetLib} {E : Type} {H : Host E}.
Local Open Scope go_scope.

Definition Do (c : Client.t) (req : option http_Request.t)
  : Go E (option http_Response.t * option error) :=
  match req with
  | None => panic nil_dereference
  | Some req => HTTPClient_Do (Client.HTTPClient c) req
  end.

Definition buildResponse (c : Client.t) (resp : option http_Response.t)
  : Go E (option Response.t * option error) :=
  match resp with
  | None => panic nil_dereference
  | Some resp =>
      r <~ ReadAll (http_Response.Body resp) ;;
      match r with
      | (_, Some err) => ret (None, Some err)
      | (body, None) =>
          let response :=
            Response.mk (http_Response.StatusCode resp)
                        (http_Response.Status resp)
                        body
                        (http_Response.Header resp) in
          ret (Some response, None)
      end
  end.

Definition Send (c : Client.t) (request : Request.t)
  : Go E (option Response.t * option error) :=
  match buildRequest c request with
  | (_, Some err) => ret (None, Some err)
  | (req, None) =>
      r <~ Do c req ;;
      let '(resp, err) := r in
      defer
        match resp with
        | Some resp => Close (http_Response.Body resp)
        | None => ret tt
        end
        match err with
        | Some err => ret (None, Some err)
        | None => buildResponse c resp
        end
  end.

Definition GET (c : Client.t) (url : string)
  : Go E (option Response.t * option error) :=
  let req := NewRequest http_MethodGet url [] in
  Send c req.

Definition POST (c : Client.t) (url contentType : string) (body : list byte)
  : Go E (option Response.t * option error) :=
  let req := NewRequest http_MethodPost url body in
  h <~ lift (Header_Set (Request.Header req) "Content-Type" contentType) ;;
  let req := Request.with_Header req h in
  Send c req.

Definition DownloadFile (c : Client.t) (url filename : string)
  : Go E (option error) :=
  r <~ GET c url ;;
  match r with
  | (_, Some err) => ret (Some err)
  | (None, None) => panic nil_dereference
  | (Some resp, None) =>
      if negb (Response.StatusCode resp =? 200)
      then ret (Some ("download failed: " +:+ Response.Status resp))
      else WriteFile filename (Response.Body resp) (octal [0; 6; 4; 4])
  end.
End WithHost.

End DoVariant.

(** ** The Go file in src/Makefile *)

Module SendRawVariant.

(** Library level defaults. *)
Definition DefaultClientTimeout : Z := 30 * time_Second.
Definition DefaultDialTimeout : Z := 10 * time_Second.
Definition DefaultKeepAlive : Z := 30 * time_Second.
Definition DefaultIdleConnTimeout : Z := 90 * time_Second.
Definition DefaultTLSHandshakeTimeout : Z := 10 * time_Second.
Definition DefaultExpectContinueTimeout : Z := 1 * time_Second.
Definition DefaultMaxIdleConns : Z := 100.

Definition NewRequest (m u : string) (b : list byte) : Request.t :=
  Request.mk m u b make_map make_map.

Definition DefaultClientConfig : ClientConfig.t :=
  ClientConfig.mk
    DefaultClientTimeout
    DefaultDialTimeout
    DefaultKeepAlive
    DefaultIdleConnTimeout
    DefaultTLSHandshakeTimeout
    DefaultExpectContinueTimeout
    DefaultMaxIdleConns
    false
    false.

Definition createClient (cfg : ClientConfig.t) : Client.t :=
  let tlsConfig :=
    tls_Config.mk (ClientConfig.SkipTLSVerify cfg) in
  let transport :=
    http_Transport.mk
      http_ProxyFromEnvironment
      (net_Dialer.mk (ClientConfig.DialTimeout cfg)
                     (ClientConfig.KeepAlive cfg))
      (ClientConfig.IdleConnTimeout cfg)
      (ClientConfig.TLSHanshakeTimeout cfg)
      (ClientConfig.ExpectContinueTimeout cfg)
      (ClientConfig.MaxIdleConns cfg)
      tlsConfig in
  let client :=
    Client.mk (http_Client.mk (ClientConfig.Timeout cfg) transport) in
  client.

Definition NewClient : Client.t := createClient DefaultClientConfig.

Definition NewClientWithConfig (cfg : ClientConfig.t) : Client.t :=
  createClient cfg.

Section WithNetLib.
Context {L : NetLib}.

Definition SetContentTypeJSON (r : Request.t) : outcome Request.t :=
  let r :=
    match Request.Header r with
    | None => Request.with_Header r make_map
    | Some _ => r
    end in
  h ← Header_Set (Request.Header r) "Content-Type" "application/json";
  mret (Request.with_Header r h).

Definition SetContentType (r : Request.t) (value : string)
  : outcome Request.t :=
  let r :=
    match Request.Header r with
    | None => Request.with_Header r make_map
    | Some _ => r
    end in
  h ← Header_Set (Request.Header r) "Content-Type" value;
  mret (Request.with_Header r h).

Definition SetAuthorization (r : Request.t) (value : string)
  : outcome Request.t :=
  let r :=
    match Request.Header r with
    | None => Request.with_Header r make_map
    | Some _ => r
    end in
  h ← Header_Set (Request.Header r) "Authorization" value;
  mret (Request.with_Header r h).

Definition buildRequest (c : Client.t) (req : Request.t)
  : option http_Request.t * option error :=
  let url := Request.BaseURL req in
  let url :=
    if negb (len (Request.Param req) =? 0)%nat
    then String.concat EmptyString
           [Request.BaseURL req; "?"; url_Values_Encode (Request.Param req)]
    else url in
  match http_NewRequest (Request.Method req) url (Request.Body req) with
  | inr err => (None, Some err)
  | inl r =>
      let r :=
        if negb (len (Request.Header req) =? 0)%nat
        then http_Request.with_Header r (Request.Header req)
        else r in
      (Some r, None)
  end.
End WithNetLib.

Section WithHost.
Context {L : NetLib} {E : Type} {H : Host E}.
Local Open Scope go_scope.

Definition SendRaw (c : Client.t) (req : option http_Request.t)
  : Go E (option http_Response.t * option error) :=
  match req with
  | None => panic nil_dereference
  | Some req => HTTPClient_Do (Client.HTTPClient c) req
  end.

Definition buildResponse (c : Client.t) (res : option http_Response.t)
  : Go E (option Response.t * option error) :=
  match res with
  | None => panic nil_dereference
  | Some res =>
      r <~ ReadAll (http_Response.Body res) ;;
      match r with
      | (_, Some err) => ret (None, Some err)
      | (body, None) =>
          defer
            (Close (http_Response.Body res))
            (let response :=
               Response.mk (http_Response.StatusCode res)
                           (http_Response.Status res)
                           body
                           (http_Response.Header res) in
             ret (Some response, None))
      end
  end.

Definition Send (c : Client.t) (request : Request.t)
  : Go E (option Response.t * option error) :=
  match buildRequest c request with
  | (_, Some err) => ret (None, Some err)
  | (req, None) =>
      r <~ SendRaw c req ;;
      match r with
      | (_, Some err) => ret (None, Some err)
      | (res, None) => buildResponse c res
      end
  end.

Definition Get (c : Client.t) (url : string)
  : Go E (option Response.t * option error) :=
  let req := NewRequest http_MethodGet url [] in
  Send c req.

Definition Post (c : Client.t) (url contentType : string) (body : list byte)
  : Go E (option Response.t * option error) :=
  let req := NewRequest http_MethodPost url body in
  h <~ lift (Header_Set (Request.Header req) "Content-Type" contentType) ;;
  let req := Request.with_Header req h in
  Send c req.

Definition DownloadFile (c : Client.t) (url filename : string)
  : Go E (option error) :=
  r <~ Get c url ;;
  match r with
  | (_, Some err) => ret (Some err)
  | (None, None) => panic nil_dereference
  | (Some resp, None) =>
      if negb (Response.StatusCode resp =? 200)
      then ret (Some (Response.Status resp))
      else WriteFile filename (Response.Body resp) (octal [0; 6; 4; 4])
  end.
End WithHost.

End SendRawVariant.

(** ** A scripted platform

    An instance of [NetLib] and of [Host] on which the package runs by
    computation: the network answers from a script, body streams and files
    are kept in finite maps.  It follows the documented behaviour of the Go
    functions it stands for on the inputs used below; no general statement
    depends on it. *)

Module Sim.

(** *** net/url, net/textproto, net/http *)

Definition is_upper (c : ascii) : bool :=
  (Ascii.leb "A" c && Ascii.leb c "Z")%bool.
Definition is_lower (c : ascii) : bool :=
  (Ascii.leb "a" c && Ascii.leb c "z")%bool.
Definition is_digit (c : ascii) : bool :=
  (Ascii.leb "0" c && Ascii.leb c "9")%bool.
Definition is_alnum (c : ascii) : bool :=
  (is_upper c || is_lower c || is_digit c)%bool.

Definition hex_digit (n : N) : ascii :=
  if (n <? 10)%N then ascii_of_N (48 + n) else ascii_of_N (55 + n).

(** [url.QueryEscape] *)
Definition escape_char (c : ascii) : string :=
  if (is_alnum c || Ascii.eqb c "-" || Ascii.eqb c "_" || Ascii.eqb c "."
      || Ascii.eqb c "~")%bool
  then String c EmptyString
  else if Ascii.eqb c " " then "+"
  else String "%"
         (String (hex_digit (N_of_ascii c / 16))
            (String (hex_digit (N_of_ascii c mod 16)) EmptyString)).

Fixpoint QueryEscape (s : string) : string :=
  match s with
  | EmptyString => EmptyString
  | String c s => escape_char c +:+ QueryEscape s
  end.

(** [url.Values.Encode]: keys in sorted order, every value of a key as
    [key=value], the pairs joined by [&]. *)
Definition Encode (v : url_Values) : string :=
  match v with
  | None => EmptyString
  | Some g =>
      let keys := merge_sort (fun a b => String.leb a b) (map fst (map_to_list g)) in
      String.concat "&"
        (flat_map
           (fun k =>
              map (fun x => QueryEscape k +:+ "=" +:+ QueryEscape x)
                  (default [] (g !! k)))
           keys)
  end.

Definition is_token_char (c : ascii) : bool :=
  (is_alnum c
   || existsb (Ascii.eqb c)
        ["!"; "#"; "$"; "%"; "&"; "'"; "*"; "+"; "-"; "."; "^"; "_"; "`";
         "|"; "~"]%char)%bool.

Definition to_upper (c : ascii) : ascii :=
  if is_lower c then ascii_of_N (N_of_ascii c - 32) else c.
Definition to_lower (c : ascii) : ascii :=
  if is_upper c then ascii_of_N (N_of_ascii c + 32) else c.

Fixpoint canonical_from (upper : bool) (s : string) : string :=
  match s with
  | EmptyString => EmptyString
  | String c s =>
      let c := if upper then to_upper c else to_lower c in
      String c (canonical_from (Ascii.eqb c "-") s)
  end.

(** [textproto.CanonicalMIMEHeaderKey]: a key made of token characters has
    its first letter and every letter after a hyphen in upper case and
    the others in lower case; any other key is left as it is. *)
Definition CanonicalMIMEHeaderKey (s : string) : string :=
  if forallb is_token_char (list_ascii_of_string s)
  then canonical_from true s
  else s.

Definition is_ctl (c : ascii) : bool :=
  ((N_of_ascii c <? 32)%N || (N_of_ascii c =? 127)%N)%bool.

(** [http.NewRequest]: the empty method means GET, a method must be a
    token, a URL must hold no control character; the new request has an
    empty, non-nil header map. *)
Definition NewRequest (method url : string) (body : list byte)
  : http_Request.t + error :=
  let method := if String.eqb method EmptyString then "GET" else method in
  if negb (forallb is_token_char (list_ascii_of_string method))
  then inr ("net/http: invalid method " +:+ method)
  else if existsb is_ctl (list_ascii_of_string url)
  then inr "net/url: invalid control character in URL"
  else inl (http_Request.mk method url make_map body).

#[global] Instance lib : NetLib := {
  http_NewRequest := NewRequest;
  url_Values_Encode := Encode;
  textproto_CanonicalMIMEHeaderKey := CanonicalMIMEHeaderKey
}.

(** *** The outside world *)

(** What the network does with the next request. *)
Inductive Reply : Type :=
| Answer (code : Z) (status : string) (header : http_Header)
         (data : list byte) (fault : option error)
| Refuse (err : error)
| GiveUp (code : Z) (status : string) (header : http_Header) (err : error).

Record Stream : Type := mkStream {
  data : list byte;
  fault : option error;
  closed : bool
}.

Record File : Type := mkFile { content : list byte; mode : Z }.

Record State : Type := mkState {
  script : list Reply;
  streams : gmap nat Stream;
  disk : gmap string File
}.

(** [Answer]: a response whose body delivers [data] and then ends, or
    fails with [fault].  [Refuse]: a transport error.  [GiveUp]: the
    response and the error that [Client.Do] returns together when it stops
    following redirects, the body already closed. *)
Definition Do (c : http_Client.t) (req : http_Request.t) (st : State)
  : (option http_Response.t * option error) * State :=
  match script st with
  | [] => ((None, Some "dial tcp: connection refused"), st)
  | Refuse err :: rest =>
      ((None, Some err), mkState rest (streams st) (disk st))
  | Answer code status header d f :: rest =>
      let h := fresh (dom (streams st)) in
      ((Some (http_Response.mk code status header h), None),
       mkState rest (<[h := mkStream d f false]> (streams st)) (disk st))
  | GiveUp code status header err :: rest =>
      let h := fresh (dom (streams st)) in
      ((Some (http_Response.mk code status header h), Some err),
       mkState rest (<[h := mkStream [] None true]> (streams st)) (disk st))
  end.

Definition ReadAll (body : ReadCloser) (st : State)
  : (list byte * option error) * State :=
  match streams st !! body with
  | None => (([], Some "invalid argument"), st)
  | Some s =>
      if closed s
      then (([], Some "http: read on closed response body"), st)
      else
        ((data s, fault s),
         mkState (script st)
                 (<[body := mkStream [] (fault s) false]> (streams st))
                 (disk st))
  end.

Definition Close (body : ReadCloser) (st : State) : option error * State :=
  match streams st !! body with
  | None => (Some "invalid argument", st)
  | Some s =>
      (None,
       mkState (script st)
               (<[body := mkStream (data s) (fault s) true]> (streams st))
               (disk st))
  end.

(** [ioutil.WriteFile]: a new file gets the mode asked for, an existing
    file is truncated and keeps its mode; the empty name is no file. *)
Definition WriteFile (name : string) (d : list byte) (perm : Z) (st : State)
  : option error * State :=
  if String.eqb name EmptyString
  then (Some "open : no such file or directory", st)
  else
    let m := match disk st !! name with Some f => mode f | None => perm end in
    (None, mkState (script st) (streams st) (<[name := mkFile d m]> (disk st))).

#[global] Instance host : Host State := {
  http_Client_Do := Do;
  ioutil_ReadAll := ReadAll;
  io_Closer_Close := Close;
  ioutil_WriteFile := WriteFile
}.

Definition boot (replies : list Reply) : World State :=
  mkWorld (mkState replies ∅ ∅) [].

End Sim.

(** ** Words of the specification *)

(** The header mutators of the request builder. *)
Inductive Mutator : Type :=
| MutContentTypeJSON
| MutContentType (value : string)
| MutAuthorization (value : string).

Section SpecWords.
Context {L : NetLib}.

(** The URL the specification gives a request: the base URL, followed by
    [?] and the encoded parameters when there are parameters. *)
Definition request_url (req : Request.t) : string :=
  if decide (len (Request.Param req) = 0%nat)
  then Request.BaseURL req
  else Request.BaseURL req +:+ "?" +:+ url_Values_Encode (Request.Param req).

(** [res] is what [http.NewRequest(method, url, body)] returns, but for
    the header map of the request. *)
Definition built_from (method url : string) (body : list byte)
  (res : option http_Request.t * option error) : Prop :=
  match http_NewRequest method url body with
  | inr err => res = (None, Some err)
  | inl r =>
      exists r',
        res = (Some r', None)
        /\ http_Request.Method r' = http_Request.Method r
        /\ http_Request.URL r' = http_Request.URL r
        /\ http_Request.Body r' = http_Request.Body r
  end.

(** [key] holds the single value [value] in [r'], whose other fields and
    other headers are those of [r]. *)
Definition upserted (key value : string) (r r' : Request.t) : Prop :=
  Request.Header r' =
    Some (<[textproto_CanonicalMIMEHeaderKey key := [value]]>
            (default ∅ (Request.Header r)))
  /\ Request.Method r' = Request.Method r
  /\ Request.BaseURL r' = Request.BaseURL r
  /\ Request.Body r' = Request.Body r
  /\ Request.Param r' = Request.Param r.

Definition mutate (m : Mutator) (r : Request.t) : outcome Request.t :=
  match m with
  | MutContentTypeJSON => DoVariant.SetContentTypeJSON r
  | MutContentType v => DoVariant.SetContentType r v
  | MutAuthorization v => DoVariant.SetAuthorization r v
  end.

Definition mutate' (m : Mutator) (r : Request.t) : outcome Request.t :=
  match m with
  | MutContentTypeJSON => SendRawVariant.SetContentTypeJSON r
  | MutContentType v => SendRawVariant.SetContentType r v
  | MutAuthorization v => SendRawVariant.SetAuthorization r v
  end.

(** The mutators of a list, applied from left to right. *)
Fixpoint mutate_all (ms : list Mutator) (r : Request.t) : outcome Request.t :=
  match ms with
  | [] => Done r
  | m :: ms => r' ← mutate m r; mutate_all ms r'
  end.

Fixpoint mutate_all' (ms : list Mutator) (r : Request.t) : outcome Request.t :=
  match ms with
  | [] => Done r
  | m :: ms => r' ← mutate' m r; mutate_all' ms r'
  end.
End SpecWords.

(** The calls of a journal that write a file. *)
Definition writes (j : list Call) : list (string * list byte * Z) :=
  omap (fun c =>
          match c with
          | CallWriteFile name data perm => Some (name, data, perm)
          | _ => None
          end) j.

(** The body streams a journal closes. *)
Definition closes (j : list Call) : list ReadCloser :=
  omap (fun c => match c with CallClose b => Some b | _ => None end) j.

(** The response value made from a protocol response and the bytes of its
    body. *)
Definition shaped (resp : http_Response.t) (body : list byte) : Response.t :=
  Response.mk (http_Response.StatusCode resp) (http_Response.Status resp)
              body (http_Response.Header resp).

(** The request that a POST shortcut sends. *)
Definition post_request {L : NetLib} (url contentType : string)
    (body : list byte) : Request.t :=
  Request.mk "POST" url body
    (Some {[ textproto_CanonicalMIMEHeaderKey "Content-Type" := [contentType] ]})
    (Some ∅).

(** File permissions: read, write, and the mode made of the bits of the
    owner, the group and the others. *)
Definition perm_r : Z := 4.
Definition perm_w : Z := 2.
Definition file_mode (owner group other : Z) : Z :=
  owner * 64 + group * 8 + other.

Section Paths.
Context {L : NetLib} {E : Type} {H : Host E}.

(** The outcome of the dispatch of the request built from [request]. *)
Definition dispatched (c : Client.t) (request : Request.t) (w : World E)
    (req : http_Request.t) (res : option http_Response.t * option error)
  : Prop :=
  DoVariant.buildRequest c request = (Some req, None)
  /\ (http_Client_Do (Client.HTTPClient c) req (ext w)).1 = res.

(** The outcome of reading, after that dispatch, the body of [resp]. *)
Definition body_read (c : Client.t) (w : World E) (req : http_Request.t)
    (resp : http_Response.t) (res : list byte * option error) : Prop :=
  (ioutil_ReadAll (http_Response.Body resp)
     (http_Client_Do (Client.HTTPClient c) req (ext w)).2).1 = res.

(** The dispatch gave a response and no error, and reading its body
    failed. *)
Definition on_read_error_path (c : Client.t) (request : Request.t)
    (w : World E) : Prop :=
  exists req resp body err,
    dispatched c request w req (Some resp, None)
    /\ body_read c w req resp (body, Some err).

(** The dispatch gave a response together with an error. *)
Definition on_response_with_error_path (c : Client.t) (request : Request.t)
    (w : World E) : Prop :=
  exists req resp err, dispatched c request w req (Some resp, Some err).
End Paths.

(** The second half of claim C2 as it is worded: whenever the dispatch
    succeeds, [Send] returns the shaped response. *)
Definition shapes_every_dispatch : Prop :=
  forall (L : NetLib) (E : Type) (H : Host E)
         (c : Client.t) (request : Request.t) (w : World E)
         (req : http_Request.t) (resp : http_Response.t),
    dispatched c request w req (Some resp, None) ->
    exists r,
      (DoVariant.Send c request w).1 = Done (Some r, None)
      /\ Response.StatusCode r = http_Response.StatusCode resp
      /\ Response.Status r = http_Response.Status resp
      /\ Response.Headers r = http_Response.Header resp.

(** The last part of claim C9 as it is worded: off the read-error path the
    two [Send]s do the same. *)
Definition differ_only_on_read_error : Prop :=
  forall (L : NetLib) (E : Type) (H : Host E)
         (c : Client.t) (request : Request.t) (w : World E),
    ~ on_read_error_path c request w ->
    SendRawVariant.Send c request w = DoVariant.Send c request w.

Ltac unfold_go :=
  unfold DoVariant.Send, SendRawVariant.Send, DoVariant.Do,
    SendRawVariant.SendRaw, DoVariant.buildResponse,
    SendRawVariant.buildResponse, bind, defer, ret, panic, lift,
    HTTPClient_Do, ReadAll, Close, WriteFile, log.

(** ** Inputs on which the package is run below *)

Definition text (s : string) : list byte := list_byte_of_string s.

Definition plain : http_Header := Some {[ "Content-Type" := ["text/plain"] ]}.

(** A GET request with the parameters a=1 and b=2. *)
Definition query_ab : Request.t :=
  Request.mk "GET" "http://localhost/items" [] make_map
             (Some (<["b" := ["2"]]> {[ "a" := ["1"] ]})).

(** The same parameters on a base URL that has a query already. *)
Definition query_twice : Request.t :=
  Request.mk "GET" "http://localhost/items?page=3" [] make_map
             (Some (<["b" := ["2"]]> {[ "a" := ["1"] ]})).

(** A request made without the builder: no header map, no parameters. *)
Definition bare : Request.t :=
  Request.mk "GET" "http://localhost" [] None None.

(** A request with one header. *)
Definition with_token : Request.t :=
  Request.mk "GET" "http://localhost" []
             (Some {[ "Authorization" := ["Bearer abc"] ]}) make_map.

(** A library whose [http.NewRequest] puts a header of its own on every
    request it makes. *)
Definition with_user_agent : NetLib := {|
  http_NewRequest method url body :=
    match Sim.NewRequest method url body with
    | inl r =>
        inl (http_Request.with_Header r
               (Some {[ "User-Agent" := ["Go-http-client/1.1"] ]}))
    | inr err => inr err
    end;
  url_Values_Encode := Sim.Encode;
  textproto_CanonicalMIMEHeaderKey := Sim.CanonicalMIMEHeaderKey
|}.

(** A GET request made by the builder. *)
Definition get_local : Request.t :=
  DoVariant.NewRequest "GET" "http://localhost" [].

Definition local_request : http_Request.t :=
  http_Request.mk "GET" "http://localhost" make_map [].

(** Scripts of the network: a 200, a 400 and a 500 answer; a 200 answer
    whose body breaks off; a redirect loop that the client gives up on. *)
Definition answer_200 : list Sim.Reply :=
  [Sim.Answer 200 "200 OK" plain (text "success") None].
Definition answer_400 : list Sim.Reply :=
  [Sim.Answer 400 "400 Bad Request" plain (text "bad request") None].
Definition answer_500 : list Sim.Reply :=
  [Sim.Answer 500 "500 Internal Server Error" plain
              (text "internal server error") None].
Definition broken_body : list Sim.Reply :=
  [Sim.Answer 200 "200 OK" plain (text "succ") (Some "unexpected EOF")].
Definition redirect_loop : list Sim.Reply :=
  [Sim.GiveUp 302 "302 Found" plain "stopped after 10 redirects"].

(** * Properties *)

(** ** Configuration and client factory *)

Lemma time_Second_ns : time_Second = 1000000000.
Proof. reflexivity. Qed.

(** C6. The default configuration is one fixed value: timeouts of 30 s
    (overall), 10 s (dial), 30 s (keep-alive), 90 s (idle connection), 10 s
    (TLS handshake) and 1 s (expect-continue), at most 100 idle connections,
    TLS verification on (skip flag false), no root-CA augmentation; both
    files agree on it. *)
Theorem DefaultClientConfig_fixed :
  DoVariant.DefaultClientConfig =
    ClientConfig.mk (30 * time_Second) (10 * time_Second) (30 * time_Second)
                    (90 * time_Second) (10 * time_Second) (1 * time_Second)
                    100 false false
  /\ DoVariant.DefaultClientConfig =
       ClientConfig.mk 30000000000 10000000000 30000000000 90000000000
                       10000000000 1000000000 100 false false
  /\ SendRawVariant.DefaultClientConfig = DoVariant.DefaultClientConfig.
Proof. repeat split. Qed.

(** C5. A client made from a configuration has that configuration's overall
    timeout, and its transport skips TLS verification exactly when the
    configuration says so; every other field that is wired is copied as it
    is, whatever its value. *)
Theorem NewClientWithConfig_wiring (cfg : ClientConfig.t) :
  let wired (c : Client.t) :=
    let hc := Client.HTTPClient c in
    let tr := http_Client.Transport hc in
    http_Client.Timeout hc = ClientConfig.Timeout cfg
    /\ tls_Config.InsecureSkipVerify (http_Transport.TLSClientConfig tr)
       = ClientConfig.SkipTLSVerify cfg
    /\ net_Dialer.Timeout (http_Transport.DialContext tr)
       = ClientConfig.DialTimeout cfg
    /\ net_Dialer.KeepAlive (http_Transport.DialContext tr)
       = ClientConfig.KeepAlive cfg
    /\ http_Transport.IdleConnTimeout tr = ClientConfig.IdleConnTimeout cfg
    /\ http_Transport.TLSHandshakeTimeout tr
       = ClientConfig.TLSHanshakeTimeout cfg
    /\ http_Transport.ExpectContinueTimeout tr
       = ClientConfig.ExpectContinueTimeout cfg
    /\ http_Transport.MaxIdleConns tr = ClientConfig.MaxIdleConns cfg in
  wired (DoVariant.NewClientWithConfig cfg)
  /\ wired (SendRawVariant.NewClientWithConfig cfg).
Proof. cbv zeta. destruct cfg. cbn. repeat split. Qed.

(** The flag for root certificates is read by nothing. *)
Lemma createClient_ignores_IncludeRootCA t1 t2 t3 t4 t5 t6 n skip b b' :
  DoVariant.createClient (ClientConfig.mk t1 t2 t3 t4 t5 t6 n skip b)
  = DoVariant.createClient (ClientConfig.mk t1 t2 t3 t4 t5 t6 n skip b').
Proof. reflexivity. Qed.

(** ** Request builder *)

Section Builder.
Context {L : NetLib}.

Lemma Header_Get_Set (g : gmap string (list string)) (key value : string) :
  Header_Get (Some (<[textproto_CanonicalMIMEHeaderKey key := [value]]> g)) key
  = value.
Proof. unfold Header_Get. by rewrite lookup_insert_eq. Qed.

Lemma Header_Get_Set_other (g : gmap string (list string)) (key key' value : string) :
  textproto_CanonicalMIMEHeaderKey key <> textproto_CanonicalMIMEHeaderKey key' ->
  Header_Get (Some (<[textproto_CanonicalMIMEHeaderKey key := [value]]> g)) key'
  = Header_Get (Some g) key'.
Proof. intros Hne. unfold Header_Get. by rewrite lookup_insert_ne. Qed.

Lemma Header_Get_nil (key : string) :
  Header_Get None key = Header_Get (Some ∅) key.
Proof. unfold Header_Get. by rewrite lookup_empty. Qed.

Lemma mutate_upserts (m : Mutator) (r : Request.t) :
  exists r',
    mutate m r = Done r'
    /\ match m with
       | MutContentTypeJSON => upserted "Content-Type" "application/json" r r'
       | MutContentType v => upserted "Content-Type" v r r'
       | MutAuthorization v => upserted "Authorization" v r r'
       end.
Proof.
  destruct r as [meth base body [g|] prm]; destruct m; cbn;
    eexists; (split; [reflexivity|]); repeat split.
Qed.

Lemma mutate'_eq (m : Mutator) (r : Request.t) : mutate' m r = mutate m r.
Proof. by destruct m. Qed.

Lemma mutate_all'_eq (ms : list Mutator) (r : Request.t) :
  mutate_all' ms r = mutate_all ms r.
Proof.
  revert r. induction ms as [|m ms IH]; intros r; [done|].
  cbn. rewrite mutate'_eq. destruct (mutate m r); cbn; [apply IH | done].
Qed.

Lemma mutate_keeps_collections (m : Mutator) (r : Request.t) :
  exists r',
    mutate m r = Done r'
    /\ is_Some (Request.Header r')
    /\ Request.Param r' = Request.Param r.
Proof.
  destruct (mutate_upserts m r) as (r' & Hrun & Hup).
  exists r'. split; [done|].
  destruct m; destruct Hup as (Hh & _ & _ & _ & Hp); rewrite Hh; eauto.
Qed.

Lemma mutate_all_keeps_collections (ms : list Mutator) (r : Request.t) :
  is_Some (Request.Header r) ->
  exists r',
    mutate_all ms r = Done r'
    /\ is_Some (Request.Header r')
    /\ Request.Param r' = Request.Param r.
Proof.
  revert r. induction ms as [|m ms IH]; intros r Hr.
  - exists r. by cbn.
  - destruct (mutate_keeps_collections m r) as (r1 & Hrun & Hh & Hp).
    destruct (IH r1 Hh) as (r2 & Hrun2 & Hh2 & Hp2).
    exists r2. cbn. rewrite Hrun. cbn. by rewrite Hrun2, Hp2, Hp.
Qed.
End Builder.

(** C7. On every request, with a header map or with none, each of the
    three mutators completes and leaves a header map in which its header
    has the given value alone and every other header as before;
    [SetContentTypeJSON] gives Content-Type the value application/json. *)
Theorem mutators_upsert {L : NetLib} (r : Request.t) (value : string) :
  let sets (run : outcome Request.t) (key v : string) :=
    exists r',
      run = Done r'
      /\ upserted key v r r'
      /\ Header_Get (Request.Header r') key = v in
  sets (DoVariant.SetContentTypeJSON r) "Content-Type" "application/json"
  /\ sets (DoVariant.SetContentType r value) "Content-Type" value
  /\ sets (DoVariant.SetAuthorization r value) "Authorization" value
  /\ sets (SendRawVariant.SetContentTypeJSON r) "Content-Type" "application/json"
  /\ sets (SendRawVariant.SetContentType r value) "Content-Type" value
  /\ sets (SendRawVariant.SetAuthorization r value) "Authorization" value.
Proof.
  cbv zeta.
  pose proof (mutate_upserts MutContentTypeJSON r) as (r1 & H1 & U1).
  pose proof (mutate_upserts (MutContentType value) r) as (r2 & H2 & U2).
  pose proof (mutate_upserts (MutAuthorization value) r) as (r3 & H3 & U3).
  pose proof (mutate'_eq MutContentTypeJSON r) as E1.
  pose proof (mutate'_eq (MutContentType value) r) as E2.
  pose proof (mutate'_eq (MutAuthorization value) r) as E3.
  cbn in H1, H2, H3, E1, E2, E3.
  rewrite E1, E2, E3, H1, H2, H3.
  repeat split;
    (eexists; split; [reflexivity|]; split; [eassumption|]);
    match goal with
    | U : upserted _ _ _ ?r' |- Header_Get (Request.Header ?r') _ = _ =>
        destruct U as (-> & _); apply Header_Get_Set
    end.
Qed.

(** C8. A request from [NewRequest] has a header map and a parameter map
    that are both present and empty; every mutator completes, leaves a
    header map present and does not touch the parameters; so after any
    mutators on a new request both maps are present. *)
Theorem NewRequest_collections_present {L : NetLib}
    (m u : string) (b : list byte) (ms : list Mutator) :
  let fresh_ok (r : Request.t) :=
    Request.Header r = Some ∅ /\ Request.Param r = Some ∅ in
  let kept (step : Mutator -> Request.t -> outcome Request.t) :=
    forall (mu : Mutator) (r : Request.t),
      exists r',
        step mu r = Done r'
        /\ is_Some (Request.Header r')
        /\ Request.Param r' = Request.Param r in
  fresh_ok (DoVariant.NewRequest m u b)
  /\ fresh_ok (SendRawVariant.NewRequest m u b)
  /\ kept mutate
  /\ kept mutate'
  /\ (exists r',
        mutate_all ms (DoVariant.NewRequest m u b) = Done r'
        /\ is_Some (Request.Header r') /\ Request.Param r' = Some ∅)
  /\ (exists r',
        mutate_all' ms (SendRawVariant.NewRequest m u b) = Done r'
        /\ is_Some (Request.Header r') /\ Request.Param r' = Some ∅).
Proof.
  cbv zeta.
  assert (Hall : exists r',
             mutate_all ms (DoVariant.NewRequest m u b) = Done r'
             /\ is_Some (Request.Header r') /\ Request.Param r' = Some ∅).
  { destruct (mutate_all_keeps_collections ms (DoVariant.NewRequest m u b))
      as (r' & Hrun & Hh & Hp); [by eexists|].
    exists r'. by rewrite Hp. }
  repeat split.
  - apply mutate_keeps_collections.
  - intros mu r. rewrite mutate'_eq. apply mutate_keeps_collections.
  - exact Hall.
  - rewrite mutate_all'_eq. exact Hall.
Qed.

(** ** Building the protocol request *)

Section BuildRequest.
Context {L : NetLib}.

Lemma concat_url (base enc : string) :
  String.concat EmptyString [base; "?"; enc] = base +:+ "?" +:+ enc.
Proof. reflexivity. Qed.

Lemma buildRequest_unfold (c : Client.t) (req : Request.t) :
  DoVariant.buildRequest c req =
    match http_NewRequest (Request.Method req) (request_url req)
                          (Request.Body req) with
    | inr err => (None, Some err)
    | inl r =>
        (Some (if decide (len (Request.Header req) = 0%nat) then r
               else http_Request.with_Header r (Request.Header req)),
         None)
    end.
Proof.
  unfold DoVariant.buildRequest, request_url.
  rewrite concat_url.
  destruct (decide (len (Request.Param req) = 0%nat)) as [->|Hp].
  - cbn [Nat.eqb negb].
    destruct (http_NewRequest _ _ _); [|done].
    destruct (decide (len (Request.Header req) = 0%nat)) as [->|Hh]; [done|].
    apply Nat.eqb_neq in Hh. by rewrite Hh.
  - apply Nat.eqb_neq in Hp. rewrite Hp. cbn [negb].
    destruct (http_NewRequest _ _ _); [|done].
    destruct (decide (len (Request.Header req) = 0%nat)) as [->|Hh]; [done|].
    apply Nat.eqb_neq in Hh. by rewrite Hh.
Qed.

Lemma buildRequest_same (c : Client.t) (req : Request.t) :
  SendRawVariant.buildRequest c req = DoVariant.buildRequest c req.
Proof. reflexivity. Qed.

(** A build gives a request or an error, never both and never neither. *)
Lemma buildRequest_cases (c : Client.t) (req : Request.t) :
  (exists r, DoVariant.buildRequest c req = (Some r, None))
  \/ (exists err, DoVariant.buildRequest c req = (None, Some err)).
Proof.
  rewrite buildRequest_unfold.
  destruct (http_NewRequest _ _ _); eauto.
Qed.

Lemma buildRequest_built_from (c : Client.t) (req : Request.t) :
  built_from (Request.Method req) (request_url req) (Request.Body req)
             (DoVariant.buildRequest c req).
Proof.
  unfold built_from. rewrite buildRequest_unfold.
  destruct (http_NewRequest _ _ _) as [r|err]; [|done].
  eexists. split; [reflexivity|].
  by destruct (decide _).
Qed.
End BuildRequest.

(** C4. With parameters, the protocol request is built from the base URL,
    a question mark and the encoded parameters, whatever the base URL holds;
    without parameters it is built from the base URL alone. *)
Theorem buildRequest_url {L : NetLib} (c : Client.t) (req : Request.t) :
  (len (Request.Param req) <> 0%nat ->
   let url :=
     Request.BaseURL req +:+ "?" +:+ url_Values_Encode (Request.Param req) in
   built_from (Request.Method req) url (Request.Body req)
              (DoVariant.buildRequest c req)
   /\ built_from (Request.Method req) url (Request.Body req)
                 (SendRawVariant.buildRequest c req))
  /\ (len (Request.Param req) = 0%nat ->
      built_from (Request.Method req) (Request.BaseURL req) (Request.Body req)
                 (DoVariant.buildRequest c req)
      /\ built_from (Request.Method req) (Request.BaseURL req) (Request.Body req)
                    (SendRawVariant.buildRequest c req)).
Proof.
  pose proof (buildRequest_built_from c req) as Hb.
  unfold request_url in Hb.
  split; intros Hp; cbv zeta;
    change (SendRawVariant.buildRequest c req) with (DoVariant.buildRequest c req);
    destruct (decide (len (Request.Param req) = 0%nat)); done.
Qed.

Lemma buildRequest_url_witness :
  len (Request.Param query_twice) <> 0%nat
  /\ built_from
       (Request.Method query_twice)
       (Request.BaseURL query_twice +:+ "?"
          +:+ url_Values_Encode (Request.Param query_twice))
       (Request.Body query_twice)
       (DoVariant.buildRequest DoVariant.NewClient query_twice)
  /\ len (Request.Param bare) = 0%nat
  /\ built_from
       (Request.Method bare) (Request.BaseURL bare) (Request.Body bare)
       (SendRawVariant.buildRequest SendRawVariant.NewClient bare).
Proof.
  assert (Htw : len (Request.Param query_twice) <> 0%nat) by (vm_compute; lia).
  assert (Hba : len (Request.Param bare) = 0%nat) by reflexivity.
  split; [exact Htw|]. split.
  - exact (proj1 (proj1 (buildRequest_url DoVariant.NewClient query_twice) Htw)).
  - split; [exact Hba|].
    exact (proj2 (proj2 (buildRequest_url SendRawVariant.NewClient bare) Hba)).
Defined.

(** The parameters a=1 and b=2 on a base URL without a query. *)
Example buildRequest_query_ab :
  DoVariant.buildRequest DoVariant.NewClient query_ab
  = (Some (http_Request.mk "GET" "http://localhost/items?a=1&b=2" make_map []),
     None).
Proof. vm_compute. reflexivity. Qed.

(** The same parameters on a base URL with a query: two question marks. *)
Example buildRequest_query_twice :
  DoVariant.buildRequest DoVariant.NewClient query_twice
  = (Some (http_Request.mk "GET" "http://localhost/items?page=3?a=1&b=2"
                           make_map []),
     None).
Proof. vm_compute. reflexivity. Qed.

(** C10. A request with headers gives a protocol request whose header map
    is the request's own, in place of whatever map [http.NewRequest] had
    put there; a request without headers gives the protocol request as
    [http.NewRequest] returned it. *)
Theorem buildRequest_header {L : NetLib}
    (c : Client.t) (req : Request.t) (r : http_Request.t) :
  http_NewRequest (Request.Method req) (request_url req) (Request.Body req)
    = inl r ->
  (len (Request.Header req) <> 0%nat ->
   let r' :=
     http_Request.mk (http_Request.Method r) (http_Request.URL r)
                     (Request.Header req) (http_Request.Body r) in
   DoVariant.buildRequest c req = (Some r', None)
   /\ SendRawVariant.buildRequest c req = (Some r', None))
  /\ (len (Request.Header req) = 0%nat ->
      DoVariant.buildRequest c req = (Some r, None)
      /\ SendRawVariant.buildRequest c req = (Some r, None)).
Proof.
  intros Hnew.
  split; intros Hh; cbv zeta;
    change (SendRawVariant.buildRequest c req) with (DoVariant.buildRequest c req);
    rewrite buildRequest_unfold, Hnew;
    destruct (decide (len (Request.Header req) = 0%nat)); done.
Qed.

Lemma buildRequest_header_witness :
  let made :=
    http_Request.mk "GET" "http://localhost"
      (Some {[ "User-Agent" := ["Go-http-client/1.1"] ]}) [] in
  (@http_NewRequest with_user_agent "GET" "http://localhost" [] = inl made)
  /\ (len (Request.Header with_token) <> 0%nat
      /\ @DoVariant.buildRequest with_user_agent DoVariant.NewClient with_token
         = (Some (http_Request.mk "GET" "http://localhost"
                    (Some {[ "Authorization" := ["Bearer abc"] ]}) []),
            None))
  /\ (len (Request.Header bare) = 0%nat
      /\ @SendRawVariant.buildRequest with_user_agent SendRawVariant.NewClient
           bare
         = (Some made, None)).
Proof.
  cbv zeta.
  assert (Hto : len (Request.Header with_token) <> 0%nat) by (vm_compute; lia).
  assert (Hba : len (Request.Header bare) = 0%nat) by reflexivity.
  split; [reflexivity|]. split; (split; [assumption|]).
  - exact (proj1 (proj1 (@buildRequest_header with_user_agent
                           DoVariant.NewClient with_token _ eq_refl) Hto)).
  - exact (proj2 (proj2 (@buildRequest_header with_user_agent
                           SendRawVariant.NewClient bare _ eq_refl) Hba)).
Defined.

(** ** Sending *)

Section Sending.
Context {L : NetLib} {E : Type} {H : Host E}.
Implicit Types (c : Client.t) (w : World E) (request : Request.t).

(** *** What each host call leaves in the journal *)

Lemma journal_Do hc req w :
  journal (HTTPClient_Do hc req w).2 = journal w ++ [CallDo hc req].
Proof. unfold_go. by destruct (http_Client_Do _ _ _). Qed.

Lemma journal_ReadAll b w :
  journal (ReadAll b w).2 = journal w ++ [CallReadAll b].
Proof. unfold_go. by destruct (ioutil_ReadAll _ _). Qed.

Lemma journal_Close b w :
  journal (Close b w).2 = journal w ++ [CallClose b].
Proof. unfold_go. by destruct (io_Closer_Close _ _). Qed.

Lemma journal_WriteFile name data perm w :
  journal (WriteFile name data perm w).2
  = journal w ++ [CallWriteFile name data perm].
Proof. unfold_go. by destruct (ioutil_WriteFile _ _ _ _). Qed.

(** *** The paths of [Send] in src/xhttp.go *)

Lemma Send_build_error c request x err w :
  DoVariant.buildRequest c request = (x, Some err) ->
  DoVariant.Send c request w = (Done (None, Some err), w).
Proof. intros Hb. unfold_go. by rewrite Hb. Qed.

Lemma Send_dispatch_error c request req resp err e1 w :
  DoVariant.buildRequest c request = (Some req, None) ->
  http_Client_Do (Client.HTTPClient c) req (ext w) = ((resp, Some err), e1) ->
  let w1 := (HTTPClient_Do (Client.HTTPClient c) req w).2 in
  DoVariant.Send c request w
  = (Done (None, Some err),
     match resp with
     | Some r => (Close (http_Response.Body r) w1).2
     | None => w1
     end).
Proof.
  intros Hb Hd. unfold_go. rewrite Hb. cbn. rewrite Hd. cbn.
  destruct resp as [r|]; [|done]. cbn.
  by destruct (io_Closer_Close _ _).
Qed.

Lemma Send_no_response c request req e1 w :
  DoVariant.buildRequest c request = (Some req, None) ->
  http_Client_Do (Client.HTTPClient c) req (ext w) = ((None, None), e1) ->
  DoVariant.Send c request w
  = (Panic nil_dereference, (HTTPClient_Do (Client.HTTPClient c) req w).2).
Proof. intros Hb Hd. unfold_go. rewrite Hb. cbn. by rewrite Hd. Qed.

Lemma Send_read_error c request req resp e1 body err e2 w :
  DoVariant.buildRequest c request = (Some req, None) ->
  http_Client_Do (Client.HTTPClient c) req (ext w) = ((Some resp, None), e1) ->
  ioutil_ReadAll (http_Response.Body resp) e1 = ((body, Some err), e2) ->
  let b := http_Response.Body resp in
  DoVariant.Send c request w
  = (Done (None, Some err),
     (Close b (ReadAll b (HTTPClient_Do (Client.HTTPClient c) req w).2).2).2).
Proof.
  intros Hb Hd Hr. unfold_go. rewrite Hb. cbn. rewrite Hd. cbn.
  rewrite Hr. cbn. by destruct (io_Closer_Close _ _).
Qed.

Lemma Send_shaped c request req resp e1 body e2 w :
  DoVariant.buildRequest c request = (Some req, None) ->
  http_Client_Do (Client.HTTPClient c) req (ext w) = ((Some resp, None), e1) ->
  ioutil_ReadAll (http_Response.Body resp) e1 = ((body, None), e2) ->
  let b := http_Response.Body resp in
  DoVariant.Send c request w
  = (Done (Some (shaped resp body), None),
     (Close b (ReadAll b (HTTPClient_Do (Client.HTTPClient c) req w).2).2).2).
Proof.
  intros Hb Hd Hr. unfold_go. rewrite Hb. cbn. rewrite Hd. cbn.
  rewrite Hr. cbn. by destruct (io_Closer_Close _ _).
Qed.

(** *** The paths of [Send] in the file of src/Makefile *)

Lemma Send'_build_error c request x err w :
  SendRawVariant.buildRequest c request = (x, Some err) ->
  SendRawVariant.Send c request w = (Done (None, Some err), w).
Proof. intros Hb. unfold_go. by rewrite Hb. Qed.

Lemma Send'_dispatch_error c request req resp err e1 w :
  SendRawVariant.buildRequest c request = (Some req, None) ->
  http_Client_Do (Client.HTTPClient c) req (ext w) = ((resp, Some err), e1) ->
  SendRawVariant.Send c request w
  = (Done (None, Some err), (HTTPClient_Do (Client.HTTPClient c) req w).2).
Proof. intros Hb Hd. unfold_go. rewrite Hb. cbn. by rewrite Hd. Qed.

Lemma Send'_no_response c request req e1 w :
  SendRawVariant.buildRequest c request = (Some req, None) ->
  http_Client_Do (Client.HTTPClient c) req (ext w) = ((None, None), e1) ->
  SendRawVariant.Send c request w
  = (Panic nil_dereference, (HTTPClient_Do (Client.HTTPClient c) req w).2).
Proof. intros Hb Hd. unfold_go. rewrite Hb. cbn. by rewrite Hd. Qed.

Lemma Send'_read_error c request req resp e1 body err e2 w :
  SendRawVariant.buildRequest c request = (Some req, None) ->
  http_Client_Do (Client.HTTPClient c) req (ext w) = ((Some resp, None), e1) ->
  ioutil_ReadAll (http_Response.Body resp) e1 = ((body, Some err), e2) ->
  SendRawVariant.Send c request w
  = (Done (None, Some err),
     (ReadAll (http_Response.Body resp)
              (HTTPClient_Do (Client.HTTPClient c) req w).2).2).
Proof.
  intros Hb Hd Hr. unfold_go. rewrite Hb. cbn. rewrite Hd. cbn.
  by rewrite Hr.
Qed.

Lemma Send'_shaped c request req resp e1 body e2 w :
  SendRawVariant.buildRequest c request = (Some req, None) ->
  http_Client_Do (Client.HTTPClient c) req (ext w) = ((Some resp, None), e1) ->
  ioutil_ReadAll (http_Response.Body resp) e1 = ((body, None), e2) ->
  let b := http_Response.Body resp in
  SendRawVariant.Send c request w
  = (Done (Some (shaped resp body), None),
     (Close b (ReadAll b (HTTPClient_Do (Client.HTTPClient c) req w).2).2).2).
Proof.
  intros Hb Hd Hr. unfold_go. rewrite Hb. cbn. rewrite Hd. cbn.
  rewrite Hr. cbn. by destruct (io_Closer_Close _ _).
Qed.

(** *** The verb shortcuts are sends of built requests *)

Lemma GET_is_Send c url :
  DoVariant.GET c url = DoVariant.Send c (DoVariant.NewRequest "GET" url []).
Proof. reflexivity. Qed.

Lemma Get_is_Send c url :
  SendRawVariant.Get c url
  = SendRawVariant.Send c (SendRawVariant.NewRequest "GET" url []).
Proof. reflexivity. Qed.

Lemma POST_is_Send c url contentType body w :
  DoVariant.POST c url contentType body w
  = DoVariant.Send c (post_request url contentType body) w.
Proof. reflexivity. Qed.

Lemma Post_is_Send c url contentType body w :
  SendRawVariant.Post c url contentType body w
  = SendRawVariant.Send c (post_request url contentType body) w.
Proof. reflexivity. Qed.
End Sending.

Section Contracts.
Context {L : NetLib} {E : Type} {H : Host E}.
Implicit Types (c : Client.t) (w : World E) (request : Request.t).

Lemma dispatched_inv c request w req res :
  dispatched c request w req res ->
  DoVariant.buildRequest c request = (Some req, None)
  /\ http_Client_Do (Client.HTTPClient c) req (ext w)
     = (res, (http_Client_Do (Client.HTTPClient c) req (ext w)).2).
Proof.
  intros [Hb Hd]. split; [done|].
  destruct (http_Client_Do _ _ _) as [r e1]. cbn in *. by subst.
Qed.

Lemma body_read_inv c w req resp res :
  body_read c w req resp res ->
  let e1 := (http_Client_Do (Client.HTTPClient c) req (ext w)).2 in
  ioutil_ReadAll (http_Response.Body resp) e1
  = (res, (ioutil_ReadAll (http_Response.Body resp) e1).2).
Proof.
  unfold body_read. intros Hr. cbv zeta.
  destruct (ioutil_ReadAll _ _) as [r e2]. cbn in *. by subst.
Qed.

(** In src/xhttp.go, a [Send] that got a response closes its body, and
    that is the last thing it does. *)
Lemma Send_closes_body c request w req resp err :
  dispatched c request w req (Some resp, err) ->
  exists calls,
    journal (DoVariant.Send c request w).2
    = journal w ++ calls ++ [CallClose (http_Response.Body resp)].
Proof.
  intros Hd. apply dispatched_inv in Hd as [Hb Hd].
  destruct err as [err|].
  - rewrite (Send_dispatch_error _ _ _ _ _ _ _ Hb Hd). cbn.
    rewrite journal_Close, journal_Do.
    exists [CallDo (Client.HTTPClient c) req]. by rewrite <- app_assoc.
  - destruct (ioutil_ReadAll (http_Response.Body resp)
                (http_Client_Do (Client.HTTPClient c) req (ext w)).2)
      as [[body [e|]] e2] eqn:Hr.
    + rewrite (Send_read_error _ _ _ _ _ _ _ _ _ Hb Hd Hr). cbn.
      rewrite journal_Close, journal_ReadAll, journal_Do.
      exists [CallDo (Client.HTTPClient c) req;
              CallReadAll (http_Response.Body resp)].
      by rewrite <- !app_assoc.
    + rewrite (Send_shaped _ _ _ _ _ _ _ _ Hb Hd Hr). cbn.
      rewrite journal_Close, journal_ReadAll, journal_Do.
      exists [CallDo (Client.HTTPClient c) req;
              CallReadAll (http_Response.Body resp)].
      by rewrite <- !app_assoc.
Qed.

(** A failed read makes either [Send] return the error of the read and
    no response. *)
Lemma Send_read_error_result c request w req resp body err :
  dispatched c request w req (Some resp, None) ->
  body_read c w req resp (body, Some err) ->
  (DoVariant.Send c request w).1 = Done (None, Some err)
  /\ (SendRawVariant.Send c request w).1 = Done (None, Some err).
Proof.
  intros Hd Hr. apply dispatched_inv in Hd as [Hb Hd].
  apply body_read_inv in Hr. cbv zeta in Hr.
  rewrite (Send_read_error _ _ _ _ _ _ _ _ _ Hb Hd Hr).
  by rewrite (Send'_read_error _ _ _ _ _ _ _ _ _ Hb Hd Hr).
Qed.

(** In the file of src/Makefile, a [Send] whose read of the body fails
    makes no call of [Close]. *)
Lemma Send'_read_error_closes_nothing c request w req resp body err :
  dispatched c request w req (Some resp, None) ->
  body_read c w req resp (body, Some err) ->
  closes (journal (SendRawVariant.Send c request w).2) = closes (journal w).
Proof.
  intros Hd Hr. apply dispatched_inv in Hd as [Hb Hd].
  apply body_read_inv in Hr. cbv zeta in Hr.
  rewrite (Send'_read_error _ _ _ _ _ _ _ _ _ Hb Hd Hr). cbn.
  rewrite journal_ReadAll, journal_Do. unfold closes.
  rewrite !omap_app. cbn. by rewrite !app_nil_r.
Qed.

(** Neither [Send] writes a file. *)
Lemma Send_writes_nothing c request w :
  writes (journal (DoVariant.Send c request w).2) = writes (journal w)
  /\ writes (journal (SendRawVariant.Send c request w).2) = writes (journal w).
Proof.
  unfold_go.
  change (SendRawVariant.buildRequest c request)
    with (DoVariant.buildRequest c request).
  destruct (DoVariant.buildRequest c request) as [[req|] [err|]]; cbn;
    try done.
  destruct (http_Client_Do _ _ _) as [[[resp|] [err|]] e1]; cbn;
    repeat match goal with
      | |- context [io_Closer_Close ?b ?e] =>
          destruct (io_Closer_Close b e); cbn
      | |- context [ioutil_ReadAll ?b ?e] =>
          destruct (ioutil_ReadAll b e) as [[? [?|]] ?]; cbn
      end;
    unfold writes; rewrite ?omap_app; cbn; by rewrite ?app_nil_r.
Qed.
End Contracts.

(** C1. The body of a response that [Send] obtained is to be closed when
    [Send] returns, also when reading it fails, and a failed read makes
    [Send] return the error and no response.  The [Send] of the file in
    src/Makefile breaks the first part: on a 200 answer whose body breaks
    off it returns the error of the read without any call of [Close], and
    the stream is left open; the [Send] of src/xhttp.go, on the same input,
    closes it. *)
Theorem Send_leaves_body_open_on_read_error :
  let c := SendRawVariant.NewClient in
  let w := Sim.boot broken_body in
  let resp := http_Response.mk 200 "200 OK" plain 0%nat in
  dispatched c get_local w local_request (Some resp, None)
  /\ body_read c w local_request resp (text "succ", Some "unexpected EOF")
  /\ (SendRawVariant.Send c get_local w).1 = Done (None, Some "unexpected EOF")
  /\ closes (journal (SendRawVariant.Send c get_local w).2) = []
  /\ Sim.closed <$> Sim.streams (ext (SendRawVariant.Send c get_local w).2) !! 0%nat
     = Some false
  /\ (DoVariant.Send c get_local w).1 = Done (None, Some "unexpected EOF")
  /\ closes (journal (DoVariant.Send c get_local w).2) = [0%nat]
  /\ Sim.closed <$> Sim.streams (ext (DoVariant.Send c get_local w).2) !! 0%nat
     = Some true.
Proof. vm_compute. repeat split. Qed.

(** Claim C2 fails as worded: a dispatch that succeeds with status 200 and
    whose body then breaks off makes [Send] return an error, not a shaped
    response. *)
Lemma Send_read_failure_unshaped : ~ shapes_every_dispatch.
Proof.
  intros Hc.
  destruct (Hc Sim.lib Sim.State Sim.host DoVariant.NewClient get_local
               (Sim.boot broken_body) local_request
               (http_Response.mk 200 "200 OK" plain 0%nat))
    as (r & Hr & _).
  - split; vm_compute; reflexivity.
  - vm_compute in Hr. discriminate Hr.
Qed.

(** C2, amended. [Send] returns an error and no response when the build of
    the protocol request fails (and then calls nothing) and when the
    dispatch returns an error.  When the dispatch succeeds and the body is
    read to its end without error, [Send] returns a response with the status
    code, status text and headers of the protocol response and the bytes
    read, whatever the status code is.  The GET and POST shortcuts are
    [Send]s of the requests they build. *)
Theorem Send_errors_and_shapes {L : NetLib} {E : Type} {H : Host E}
    (c : Client.t) (request : Request.t) (w : World E) :
  let holds (send : Client.t -> Request.t ->
                    Go E (option Response.t * option error)) :=
    (forall x err,
        DoVariant.buildRequest c request = (x, Some err) ->
        send c request w = (Done (None, Some err), w))
    /\ (forall req resp err,
          dispatched c request w req (resp, Some err) ->
          (send c request w).1 = Done (None, Some err))
    /\ (forall req resp body,
          dispatched c request w req (Some resp, None) ->
          body_read c w req resp (body, None) ->
          exists r,
            (send c request w).1 = Done (Some r, None)
            /\ Response.StatusCode r = http_Response.StatusCode resp
            /\ Response.Status r = http_Response.Status resp
            /\ Response.Body r = body
            /\ Response.Headers r = http_Response.Header resp) in
  holds DoVariant.Send
  /\ holds SendRawVariant.Send
  /\ (forall url,
        DoVariant.GET c url w
        = DoVariant.Send c (DoVariant.NewRequest "GET" url []) w)
  /\ (forall url,
        SendRawVariant.Get c url w
        = SendRawVariant.Send c (SendRawVariant.NewRequest "GET" url []) w)
  /\ (forall url contentType body,
        DoVariant.POST c url contentType body w
        = DoVariant.Send c (post_request url contentType body) w)
  /\ (forall url contentType body,
        SendRawVariant.Post c url contentType body w
        = SendRawVariant.Send c (post_request url contentType body) w).
Proof.
  cbv zeta. repeat split; try reflexivity.
  - intros x err Hb. by apply Send_build_error with x.
  - intros req resp err Hd. apply dispatched_inv in Hd as [Hb Hd].
    by rewrite (Send_dispatch_error _ _ _ _ _ _ _ Hb Hd).
  - intros req resp body Hd Hr. apply dispatched_inv in Hd as [Hb Hd].
    apply body_read_inv in Hr. cbv zeta in Hr.
    rewrite (Send_shaped _ _ _ _ _ _ _ _ Hb Hd Hr).
    by eexists.
  - intros x err Hb. by apply Send'_build_error with x.
  - intros req resp err Hd. apply dispatched_inv in Hd as [Hb Hd].
    by rewrite (Send'_dispatch_error _ _ _ _ _ _ _ Hb Hd).
  - intros req resp body Hd Hr. apply dispatched_inv in Hd as [Hb Hd].
    apply body_read_inv in Hr. cbv zeta in Hr.
    rewrite (Send'_shaped _ _ _ _ _ _ _ _ Hb Hd Hr).
    by eexists.
Qed.

Lemma Send_errors_and_shapes_witness :
  let c := DoVariant.NewClient in
  let w := Sim.boot answer_400 in
  let resp := http_Response.mk 400 "400 Bad Request" plain 0%nat in
  dispatched c get_local w local_request (Some resp, None)
  /\ body_read c w local_request resp (text "bad request", None)
  /\ exists r,
       (DoVariant.Send c get_local w).1 = Done (Some r, None)
       /\ Response.StatusCode r = 400
       /\ Response.Status r = "400 Bad Request"
       /\ Response.Body r = text "bad request"
       /\ Response.Headers r = plain.
Proof.
  cbv zeta.
  assert (Hd : dispatched DoVariant.NewClient get_local (Sim.boot answer_400)
                 local_request
                 (Some (http_Response.mk 400 "400 Bad Request" plain 0%nat), None))
    by (split; vm_compute; reflexivity).
  assert (Hr : body_read DoVariant.NewClient (Sim.boot answer_400) local_request
                 (http_Response.mk 400 "400 Bad Request" plain 0%nat)
                 (text "bad request", None))
    by (vm_compute; reflexivity).
  split; [exact Hd|]. split; [exact Hr|].
  exact (proj2 (proj2 (proj1
           (Send_errors_and_shapes DoVariant.NewClient get_local
              (Sim.boot answer_400))))
           local_request _ _ Hd Hr).
Defined.

(** ** File download *)

Section Download.
Context {L : NetLib} {E : Type} {H : Host E}.
Implicit Types (c : Client.t) (w : World E).

Lemma octal_0644 : octal [0; 6; 4; 4] = file_mode (perm_r + perm_w) perm_r perm_r.
Proof. reflexivity. Qed.

Lemma DownloadFile_unfold c url filename w :
  DoVariant.DownloadFile c url filename w =
    match DoVariant.GET c url w with
    | (Done (_, Some err), w1) => (Done (Some err), w1)
    | (Done (None, None), w1) => (Panic nil_dereference, w1)
    | (Done (Some resp, None), w1) =>
        if decide (Response.StatusCode resp = 200)
        then WriteFile filename (Response.Body resp) 420 w1
        else (Done (Some ("download failed: " +:+ Response.Status resp)), w1)
    | (Panic why, w1) => (Panic why, w1)
    end.
Proof.
  unfold DoVariant.DownloadFile, bind.
  destruct (DoVariant.GET c url w) as [[[[resp|] [err|]]|why] w1]; try done.
  destruct (decide (Response.StatusCode resp = 200)) as [->|Hne]; [done|].
  apply Z.eqb_neq in Hne. by rewrite Hne.
Qed.

Lemma DownloadFile'_unfold c url filename w :
  SendRawVariant.DownloadFile c url filename w =
    match SendRawVariant.Get c url w with
    | (Done (_, Some err), w1) => (Done (Some err), w1)
    | (Done (None, None), w1) => (Panic nil_dereference, w1)
    | (Done (Some resp, None), w1) =>
        if decide (Response.StatusCode resp = 200)
        then WriteFile filename (Response.Body resp) 420 w1
        else (Done (Some (Response.Status resp)), w1)
    | (Panic why, w1) => (Panic why, w1)
    end.
Proof.
  unfold SendRawVariant.DownloadFile, bind.
  destruct (SendRawVariant.Get c url w) as [[[[resp|] [err|]]|why] w1];
    try done.
  destruct (decide (Response.StatusCode resp = 200)) as [->|Hne]; [done|].
  apply Z.eqb_neq in Hne. by rewrite Hne.
Qed.

Lemma writes_WriteFile name data perm w :
  writes (journal (WriteFile name data perm w).2)
  = writes (journal w) ++ [(name, data, perm)].
Proof. rewrite journal_WriteFile. unfold writes. by rewrite omap_app. Qed.
End Download.

(** C3. [DownloadFile] performs a GET.  If the GET returns an error, that
    error is returned and nothing more is done.  If the response has a
    status code other than 200, an error that ends with the status text is
    returned and nothing more is done: no file is written.  If the status
    code is 200, the one thing done after the GET is
    [ioutil.WriteFile(filename, body, 0644)] with the bytes of the response
    body, whose result is returned; 0644 is read and write for the owner,
    read for the group and for the others.  The GET itself writes no
    file. *)
Theorem DownloadFile_contract {L : NetLib} {E : Type} {H : Host E}
    (c : Client.t) (url filename : string) (w : World E) :
  let perm := file_mode (perm_r + perm_w) perm_r perm_r in
  let holds (get : Go E (option Response.t * option error))
            (download : Go E (option error)) (prefix : string) :=
    (forall x err,
        (get w).1 = Done (x, Some err) ->
        download w = (Done (Some err), (get w).2))
    /\ (forall resp,
          (get w).1 = Done (Some resp, None) ->
          Response.StatusCode resp <> 200 ->
          download w
          = (Done (Some (prefix +:+ Response.Status resp)), (get w).2)
          /\ writes (journal (download w).2) = writes (journal w))
    /\ (forall resp,
          (get w).1 = Done (Some resp, None) ->
          Response.StatusCode resp = 200 ->
          download w = WriteFile filename (Response.Body resp) perm (get w).2
          /\ writes (journal (download w).2)
             = writes (journal w) ++ [(filename, Response.Body resp, perm)]) in
  holds (DoVariant.GET c url) (DoVariant.DownloadFile c url filename)
        "download failed: "
  /\ holds (SendRawVariant.Get c url) (SendRawVariant.DownloadFile c url filename)
           EmptyString
  /\ perm = 420.
Proof.
  cbv zeta.
  pose proof (Send_writes_nothing c (DoVariant.NewRequest "GET" url []) w)
    as [Hw Hw'].
  change (DoVariant.Send c (DoVariant.NewRequest "GET" url []) w)
    with (DoVariant.GET c url w) in Hw.
  change (SendRawVariant.Send c (DoVariant.NewRequest "GET" url []) w)
    with (SendRawVariant.Get c url w) in Hw'.
  split; [|split; [|reflexivity]].
  - repeat split.
    + intros x err Hg. rewrite DownloadFile_unfold.
      destruct (DoVariant.GET c url w) as [o w1]. cbn in Hg. subst o.
      by destruct x.
    + rewrite DownloadFile_unfold.
      destruct (DoVariant.GET c url w) as [o w1]. cbn in *. subst o.
      by destruct (decide _).
    + rewrite DownloadFile_unfold.
      destruct (DoVariant.GET c url w) as [o w1]. cbn in *. subst o.
      by destruct (decide _).
    + rewrite DownloadFile_unfold.
      destruct (DoVariant.GET c url w) as [o w1]. cbn in *. subst o.
      by destruct (decide _).
    + rewrite DownloadFile_unfold.
      destruct (DoVariant.GET c url w) as [o w1]. cbn in *. subst o.
      destruct (decide _); [|done].
      change 420 with (file_mode (perm_r + perm_w) perm_r perm_r).
      by rewrite writes_WriteFile, Hw.
  - repeat split.
    + intros x err Hg. rewrite DownloadFile'_unfold.
      destruct (SendRawVariant.Get c url w) as [o w1]. cbn in Hg. subst o.
      by destruct x.
    + rewrite DownloadFile'_unfold.
      destruct (SendRawVariant.Get c url w) as [o w1]. cbn in *. subst o.
      by destruct (decide _).
    + rewrite DownloadFile'_unfold.
      destruct (SendRawVariant.Get c url w) as [o w1]. cbn in *. subst o.
      by destruct (decide _).
    + rewrite DownloadFile'_unfold.
      destruct (SendRawVariant.Get c url w) as [o w1]. cbn in *. subst o.
      by destruct (decide _).
    + rewrite DownloadFile'_unfold.
      destruct (SendRawVariant.Get c url w) as [o w1]. cbn in *. subst o.
      destruct (decide _); [|done].
      change 420 with (file_mode (perm_r + perm_w) perm_r perm_r).
      by rewrite writes_WriteFile, Hw'.
Qed.

Lemma DownloadFile_contract_witness :
  let c := DoVariant.NewClient in
  let resp := Response.mk 200 "200 OK" (text "success") plain in
  let get := DoVariant.GET c "http://localhost/file" (Sim.boot answer_200) in
  let resp' := Response.mk 400 "400 Bad Request" (text "bad request") plain in
  let get' := DoVariant.GET c "http://localhost/file" (Sim.boot answer_400) in
  (get.1 = Done (Some resp, None)
   /\ Response.StatusCode resp = 200
   /\ DoVariant.DownloadFile c "http://localhost/file" "out.bin"
        (Sim.boot answer_200)
      = WriteFile "out.bin" (text "success") 420 get.2)
  /\ (get'.1 = Done (Some resp', None)
      /\ Response.StatusCode resp' <> 200
      /\ DoVariant.DownloadFile c "http://localhost/file" "out.bin"
           (Sim.boot answer_400)
         = (Done (Some "download failed: 400 Bad Request"), get'.2)).
Proof.
  cbv zeta.
  assert (Hg : (DoVariant.GET DoVariant.NewClient "http://localhost/file"
                  (Sim.boot answer_200)).1
               = Done (Some (Response.mk 200 "200 OK" (text "success") plain),
                       None))
    by (vm_compute; reflexivity).
  assert (Hg' : (DoVariant.GET DoVariant.NewClient "http://localhost/file"
                   (Sim.boot answer_400)).1
                = Done (Some (Response.mk 400 "400 Bad Request"
                                (text "bad request") plain), None))
    by (vm_compute; reflexivity).
  assert (Hne : Response.StatusCode
                  (Response.mk 400 "400 Bad Request" (text "bad request") plain)
                <> 200) by (cbn; lia).
  split; (split; [assumption|]); (split; [assumption || reflexivity|]).
  - exact (proj1 (proj2 (proj2 (proj1
             (DownloadFile_contract DoVariant.NewClient "http://localhost/file"
                "out.bin" (Sim.boot answer_200)))) _ Hg eq_refl)).
  - exact (proj1 (proj1 (proj2 (proj1
             (DownloadFile_contract DoVariant.NewClient "http://localhost/file"
                "out.bin" (Sim.boot answer_400)))) _ Hg' Hne)).
Defined.

(** On the scripted platform a download of a 200 answer leaves the body in
    the file, with mode 0644 for a new file; a download of a 400 answer
    leaves the disk as it was. *)
Example DownloadFile_200_on_disk :
  let done := DoVariant.DownloadFile DoVariant.NewClient "http://localhost/file"
                "out.bin" (Sim.boot answer_200) in
  done.1 = Done None
  /\ Sim.disk (ext done.2) = {[ "out.bin" := Sim.mkFile (text "success") 420 ]}.
Proof. vm_compute. split; reflexivity. Qed.

Example DownloadFile_400_on_disk :
  let done := SendRawVariant.DownloadFile SendRawVariant.NewClient
                "http://localhost/file" "out.bin" (Sim.boot answer_400) in
  done.1 = Done (Some "400 Bad Request")
  /\ Sim.disk (ext done.2) = ∅.
Proof. vm_compute. split; reflexivity. Qed.

(** ** The two files compared *)

(** Claim C9 fails as worded: when the dispatch returns a response together
    with an error, which is not the read-error path, only the [Send] of
    src/xhttp.go closes the body. *)
Lemma Sends_differ_on_response_with_error : ~ differ_only_on_read_error.
Proof.
  intros Hc.
  specialize (Hc Sim.lib Sim.State Sim.host DoVariant.NewClient get_local
                 (Sim.boot redirect_loop)).
  assert (Hn : ~ on_read_error_path DoVariant.NewClient get_local
                   (Sim.boot redirect_loop)).
  { intros (req & resp & body & err & [_ Hd] & _).
    vm_compute in Hd. discriminate Hd. }
  apply Hc in Hn.
  apply (f_equal (fun r => closes (journal r.2))) in Hn.
  vm_compute in Hn. discriminate Hn.
Qed.

(** C9, amended. The two files build the same protocol request from every
    request, and their [Send]s return the same result in every case; when
    the dispatch succeeds and the body is read without error they also make
    the same calls and return the shaped response.  They differ only in
    closing the body, in two cases: when reading the body fails, and when
    the dispatch returns a response together with an error.  In both, the
    [Send] of src/xhttp.go does what the other does and then closes the
    body. *)
Theorem Sends_agree {L : NetLib} {E : Type} {H : Host E}
    (c : Client.t) (request : Request.t) (w : World E) :
  SendRawVariant.buildRequest c request = DoVariant.buildRequest c request
  /\ (SendRawVariant.Send c request w).1 = (DoVariant.Send c request w).1
  /\ (forall req resp body,
        dispatched c request w req (Some resp, None) ->
        body_read c w req resp (body, None) ->
        SendRawVariant.Send c request w = DoVariant.Send c request w
        /\ (DoVariant.Send c request w).1 = Done (Some (shaped resp body), None))
  /\ (SendRawVariant.Send c request w = DoVariant.Send c request w
      \/ exists req resp err,
           (dispatched c request w req (Some resp, Some err)
            \/ (dispatched c request w req (Some resp, None)
                /\ exists body, body_read c w req resp (body, Some err)))
           /\ (DoVariant.Send c request w).2
              = (Close (http_Response.Body resp)
                       (SendRawVariant.Send c request w).2).2).
Proof.
  split; [reflexivity|].
  destruct (buildRequest_cases c request) as [[req Hb]|[berr Hb]].
  2:{ rewrite (Send_build_error _ _ _ _ _ Hb), (Send'_build_error _ _ _ _ _ Hb).
      split; [done|]. split; [|by left].
      intros req resp body [Hb' _]. congruence. }
  destruct (http_Client_Do (Client.HTTPClient c) req (ext w))
    as [[oresp oerr] e1] eqn:Hd.
  assert (Hdis : dispatched c request w req (oresp, oerr))
    by (split; [done | by rewrite Hd]).
  assert (Hinj : forall req' res',
             dispatched c request w req' res' ->
             req' = req /\ res' = (oresp, oerr)).
  { intros req' res' [Hb' Hd']. rewrite Hb in Hb'.
    injection Hb' as <-. by rewrite Hd in Hd'. }
  destruct oerr as [err|].
  - rewrite (Send_dispatch_error _ _ _ _ _ _ _ Hb Hd),
      (Send'_dispatch_error _ _ _ _ _ _ _ Hb Hd).
    split; [done|]. split.
    + intros req' resp body Hd' _. apply Hinj in Hd' as [_ ?]. congruence.
    + destruct oresp as [resp|]; [|by left].
      right. exists req, resp, err. split; [by left | done].
  - destruct oresp as [resp|].
    2:{ rewrite (Send_no_response _ _ _ _ _ Hb Hd),
          (Send'_no_response _ _ _ _ _ Hb Hd).
        split; [done|]. split; [|by left].
        intros req' resp body Hd' _. apply Hinj in Hd' as [_ ?]. congruence. }
    destruct (ioutil_ReadAll (http_Response.Body resp) e1)
      as [[body0 [rerr|]] e2] eqn:Hr.
    + rewrite (Send_read_error _ _ _ _ _ _ _ _ _ Hb Hd Hr),
        (Send'_read_error _ _ _ _ _ _ _ _ _ Hb Hd Hr).
      split; [done|]. split.
      * intros req' resp' body Hd' Hr'. apply Hinj in Hd' as [-> Heq].
        injection Heq as <-. unfold body_read in Hr'.
        rewrite Hd in Hr'. cbn in Hr'. rewrite Hr in Hr'. cbn in Hr'.
        congruence.
      * right. exists req, resp, rerr. split; [|done].
        right. split; [done|]. exists body0.
        unfold body_read. rewrite Hd. cbn. by rewrite Hr.
    + rewrite (Send_shaped _ _ _ _ _ _ _ _ Hb Hd Hr),
        (Send'_shaped _ _ _ _ _ _ _ _ Hb Hd Hr).
      split; [done|]. split; [|by left].
      intros req' resp' body Hd' Hr'. apply Hinj in Hd' as [-> Heq].
      injection Heq as <-. unfold body_read in Hr'.
      rewrite Hd in Hr'. cbn in Hr'. rewrite Hr in Hr'. cbn in Hr'.
      injection Hr' as <-. done.
Qed.

Lemma Sends_agree_witness :
  let c := DoVariant.NewClient in
  let w := Sim.boot answer_500 in
  let resp := http_Response.mk 500 "500 Internal Server Error" plain 0%nat in
  dispatched c get_local w local_request (Some resp, None)
  /\ body_read c w local_request resp (text "internal server error", None)
  /\ SendRawVariant.Send c get_local w = DoVariant.Send c get_local w
  /\ (DoVariant.Send c get_local w).1
     = Done (Some (Response.mk 500 "500 Internal Server Error"
                     (text "internal server error") plain), None).
Proof.
  cbv zeta.
  assert (Hd : dispatched DoVariant.NewClient get_local (Sim.boot answer_500)
                 local_request
                 (Some (http_Response.mk 500 "500 Internal Server Error" plain
                                         0%nat), None))
    by (split; vm_compute; reflexivity).
  assert (Hr : body_read DoVariant.NewClient (Sim.boot answer_500) local_request
                 (http_Response.mk 500 "500 Internal Server Error" plain 0%nat)
                 (text "internal server error", None))
    by (vm_compute; reflexivity).
  split; [exact Hd|]. split; [exact Hr|].
  exact (proj1 (proj2 (proj2
           (Sends_agree DoVariant.NewClient get_local (Sim.boot answer_500))))
           local_request _ _ Hd Hr).
Defined.

(** * Further properties of the package *)

(** ** [Send], path by path *)

Section SendUnfolded.
Context {L : NetLib} {E : Type} {H : Host E}.
Implicit Types (c : Client.t) (w : World E) (request : Request.t).

(** What the [Send] of src/xhttp.go returns and where it leaves the world,
    read off the results of the host. *)
Lemma Send_unfold c request w :
  DoVariant.Send c request w =
    match DoVariant.buildRequest c request with
    | (_, Some err) => (Done (None, Some err), w)
    | (None, None) => (Panic nil_dereference, w)
    | (Some req, None) =>
        let w1 := (HTTPClient_Do (Client.HTTPClient c) req w).2 in
        match (http_Client_Do (Client.HTTPClient c) req (ext w)).1 with
        | (Some resp, Some err) =>
            (Done (None, Some err), (Close (http_Response.Body resp) w1).2)
        | (None, Some err) => (Done (None, Some err), w1)
        | (None, None) => (Panic nil_dereference, w1)
        | (Some resp, None) =>
            let b := http_Response.Body resp in
            let w2 := (Close b (ReadAll b w1).2).2 in
            match (ioutil_ReadAll b (ext w1)).1 with
            | (_, Some err) => (Done (None, Some err), w2)
            | (body, None) => (Done (Some (shaped resp body), None), w2)
            end
        end
    end.
Proof.
  unfold_go.
  destruct (DoVariant.buildRequest c request) as [[req|] [err|]]; try done.
  cbn. destruct (http_Client_Do _ _ _) as [[[resp|] [err|]] e1]; cbn; try done.
  - by destruct (io_Closer_Close _ _).
  - destruct (ioutil_ReadAll _ _) as [[body [err|]] e2]; cbn;
      by destruct (io_Closer_Close _ _).
Qed.

(** The same for the [Send] of the file in src/Makefile. *)
Lemma Send'_unfold c request w :
  SendRawVariant.Send c request w =
    match DoVariant.buildRequest c request with
    | (_, Some err) => (Done (None, Some err), w)
    | (None, None) => (Panic nil_dereference, w)
    | (Some req, None) =>
        let w1 := (HTTPClient_Do (Client.HTTPClient c) req w).2 in
        match (http_Client_Do (Client.HTTPClient c) req (ext w)).1 with
        | (_, Some err) => (Done (None, Some err), w1)
        | (None, None) => (Panic nil_dereference, w1)
        | (Some resp, None) =>
            let b := http_Response.Body resp in
            let w2 := (ReadAll b w1).2 in
            match (ioutil_ReadAll b (ext w1)).1 with
            | (_, Some err) => (Done (None, Some err), w2)
            | (body, None) =>
                (Done (Some (shaped resp body), None), (Close b w2).2)
            end
        end
    end.
Proof.
  unfold_go.
  change (SendRawVariant.buildRequest c request)
    with (DoVariant.buildRequest c request).
  destruct (DoVariant.buildRequest c request) as [[req|] [err|]]; try done.
  cbn. destruct (http_Client_Do _ _ _) as [[[resp|] [err|]] e1]; cbn; try done.
  destruct (ioutil_ReadAll _ _) as [[body [err|]] e2]; cbn; [done|].
  by destruct (io_Closer_Close _ _).
Qed.

Lemma ext_Do hc req w :
  ext (HTTPClient_Do hc req w).2 = (http_Client_Do hc req (ext w)).2.
Proof. unfold_go. by destruct (http_Client_Do _ _ _). Qed.

Lemma closes_app (j1 j2 : list Call) : closes (j1 ++ j2) = closes j1 ++ closes j2.
Proof. unfold closes. apply omap_app. Qed.
End SendUnfolded.

(** X1. A [Send] that completes returns a response or an error: never
    both, never neither. *)
Theorem Send_result_exclusive {L : NetLib} {E : Type} {H : Host E}
    (c : Client.t) (request : Request.t) (w : World E)
    (r : option Response.t) (e : option error) :
  (DoVariant.Send c request w).1 = Done (r, e)
  \/ (SendRawVariant.Send c request w).1 = Done (r, e) ->
  (is_Some r /\ e = None) \/ (r = None /\ is_Some e).
Proof.
  rewrite Send_unfold, Send'_unfold.
  destruct (DoVariant.buildRequest c request) as [[req|] [berr|]]; cbn;
    try (intros [Heq|Heq]; inversion Heq; eauto; fail).
  destruct (http_Client_Do _ _ _).1 as [[resp|] [err|]]; cbn;
    try (intros [Heq|Heq]; inversion Heq; eauto; fail).
  destruct (ioutil_ReadAll _ _).1 as [body [err|]]; cbn;
    intros [Heq|Heq]; inversion Heq; eauto.
Qed.

Lemma Send_result_exclusive_witness :
  (is_Some (Some (Response.mk 200 "200 OK" (text "success") plain))
   /\ (None : option error) = None)
  \/ (Some (Response.mk 200 "200 OK" (text "success") plain) = None
      /\ is_Some (None : option error)).
Proof.
  assert (Hs : (DoVariant.Send DoVariant.NewClient get_local
                  (Sim.boot answer_200)).1
               = Done (Some (Response.mk 200 "200 OK" (text "success") plain),
                       None))
    by (vm_compute; reflexivity).
  exact (Send_result_exclusive DoVariant.NewClient get_local
           (Sim.boot answer_200) _ _ (or_introl Hs)).
Defined.


(** X3. No retry and no stray call: the [Send] of src/xhttp.go makes no
    call, or one dispatch, or one dispatch and one close, or one dispatch,
    one read and one close of the same body, in that order; the [Send] of
    the file in src/Makefile makes no call, or one dispatch, or one
    dispatch and one read, or one dispatch, one read and one close. *)
Theorem Send_call_sequence {L : NetLib} {E : Type} {H : Host E}
    (c : Client.t) (request : Request.t) (w : World E) :
  let hc := Client.HTTPClient c in
  (exists calls,
      journal (DoVariant.Send c request w).2 = journal w ++ calls
      /\ (calls = []
          \/ exists req,
               calls = [CallDo hc req]
               \/ exists b,
                    calls = [CallDo hc req; CallClose b]
                    \/ calls = [CallDo hc req; CallReadAll b; CallClose b]))
  /\ (exists calls,
        journal (SendRawVariant.Send c request w).2 = journal w ++ calls
        /\ (calls = []
            \/ exists req,
                 calls = [CallDo hc req]
                 \/ exists b,
                      calls = [CallDo hc req; CallReadAll b]
                      \/ calls = [CallDo hc req; CallReadAll b; CallClose b])).
Proof.
  cbv zeta. rewrite Send_unfold, Send'_unfold.
  destruct (DoVariant.buildRequest c request) as [[req|] [berr|]]; cbn;
    try (split; exists []; rewrite app_nil_r; eauto; fail).
  destruct (http_Client_Do _ _ _).1 as [[resp|] [err|]]; cbn.
  - rewrite journal_Close, journal_Do, <- app_assoc. cbn.
    split; eexists; (split; [reflexivity|]); eauto 10.
  - destruct (ioutil_ReadAll _ _).1 as [body [err|]]; cbn;
      rewrite ?journal_Close, journal_ReadAll, journal_Do, <- ?app_assoc; cbn;
      split; eexists; (split; [reflexivity|]); eauto 10.
  - rewrite journal_Do.
    split; eexists; (split; [reflexivity|]); right; exists req; by left.
  - rewrite journal_Do.
    split; eexists; (split; [reflexivity|]); right; exists req; by left.
Qed.

(** X4. The [Send] of src/xhttp.go closes the body of every response that
    the dispatch returned, with or without an error, exactly once, and
    closes nothing else.  The [Send] of the file in src/Makefile closes the
    body only when the dispatch returned no error and the read succeeded. *)
Theorem Send_closes_exactly {L : NetLib} {E : Type} {H : Host E}
    (c : Client.t) (request : Request.t) (w : World E)
    (req : http_Request.t) (oresp : option http_Response.t)
    (oerr : option error) :
  dispatched c request w req (oresp, oerr) ->
  closes (journal (DoVariant.Send c request w).2)
  = closes (journal w)
    ++ match oresp with
       | Some resp => [http_Response.Body resp]
       | None => []
       end
  /\ closes (journal (SendRawVariant.Send c request w).2)
     = closes (journal w)
       ++ match oresp, oerr with
          | Some resp, None =>
              match (ioutil_ReadAll (http_Response.Body resp)
                       (http_Client_Do (Client.HTTPClient c) req (ext w)).2).1
              with
              | (_, None) => [http_Response.Body resp]
              | (_, Some _) => []
              end
          | _, _ => []
          end.
Proof.
  intros [Hb Hd]. rewrite Send_unfold, Send'_unfold, Hb. cbn. rewrite Hd.
  rewrite ext_Do.
  destruct oresp as [resp|], oerr as [err|]; cbn.
  - rewrite journal_Close, journal_Do, !closes_app. cbn.
    by rewrite !app_nil_r.
  - destruct (ioutil_ReadAll _ _).1 as [body [err|]]; cbn;
      rewrite ?journal_Close, journal_ReadAll, journal_Do, !closes_app; cbn;
      by rewrite ?app_nil_r.
  - rewrite journal_Do, !closes_app. cbn. by rewrite !app_nil_r.
  - rewrite journal_Do, !closes_app. cbn. by rewrite !app_nil_r.
Qed.

Lemma Send_closes_exactly_witness :
  let c := DoVariant.NewClient in
  let w := Sim.boot redirect_loop in
  dispatched c get_local w local_request
    (Some (http_Response.mk 302 "302 Found" plain 0%nat),
     Some "stopped after 10 redirects")
  /\ closes (journal (DoVariant.Send c get_local w).2) = [0%nat]
  /\ closes (journal (SendRawVariant.Send c get_local w).2) = [].
Proof.
  cbv zeta.
  assert (Hd : dispatched DoVariant.NewClient get_local
                 (Sim.boot redirect_loop) local_request
                 (Some (http_Response.mk 302 "302 Found" plain 0%nat),
                  Some "stopped after 10 redirects"))
    by (split; vm_compute; reflexivity).
  split; [exact Hd|].
  exact (Send_closes_exactly DoVariant.NewClient get_local
           (Sim.boot redirect_loop) _ _ _ Hd).
Defined.

(** ** What the verb shortcuts dispatch *)

Section Shortcuts.
Context {L : NetLib} {E : Type} {H : Host E}.
Implicit Types (c : Client.t) (w : World E) (request : Request.t).

(** A [Send] whose build succeeds dispatches the built request first. *)
Lemma Send_dispatches_built c request w req :
  DoVariant.buildRequest c request = (Some req, None) ->
  (exists calls,
      journal (DoVariant.Send c request w).2
      = journal w ++ CallDo (Client.HTTPClient c) req :: calls)
  /\ (exists calls,
        journal (SendRawVariant.Send c request w).2
        = journal w ++ CallDo (Client.HTTPClient c) req :: calls).
Proof.
  intros Hb. rewrite Send_unfold, Send'_unfold, Hb. cbn.
  destruct (http_Client_Do _ _ _).1 as [[resp|] [err|]]; cbn.
  - rewrite journal_Close, journal_Do, <- app_assoc. cbn. eauto.
  - destruct (ioutil_ReadAll _ _).1 as [body [err|]]; cbn;
      rewrite ?journal_Close, journal_ReadAll, journal_Do, <- ?app_assoc; cbn;
      eauto.
  - rewrite journal_Do. eauto.
  - rewrite journal_Do. eauto.
Qed.

Lemma buildRequest_post c url contentType body r :
  http_NewRequest "POST" url body = inl r ->
  DoVariant.buildRequest c (post_request url contentType body)
  = (Some (http_Request.mk
             (http_Request.Method r) (http_Request.URL r)
             (Some {[ textproto_CanonicalMIMEHeaderKey "Content-Type"
                      := [contentType] ]})
             (http_Request.Body r)),
     None).
Proof.
  intros Hn. rewrite buildRequest_unfold. unfold request_url, post_request.
  cbn [Request.Param Request.BaseURL Request.Method Request.Body
       Request.Header len].
  rewrite map_size_empty, map_size_singleton.
  destruct (decide (0%nat = 0%nat)); [|done].
  rewrite Hn. by destruct (decide (1%nat = 0%nat)).
Qed.

Lemma buildRequest_get c url r :
  http_NewRequest "GET" url [] = inl r ->
  DoVariant.buildRequest c (DoVariant.NewRequest "GET" url []) = (Some r, None).
Proof.
  intros Hn. rewrite buildRequest_unfold.
  unfold request_url, DoVariant.NewRequest, make_map.
  cbn [Request.Param Request.BaseURL Request.Method Request.Body
       Request.Header len].
  rewrite map_size_empty.
  destruct (decide (0%nat = 0%nat)); [|done].
  by rewrite Hn.
Qed.
End Shortcuts.

(** X5. When [http.NewRequest] accepts the method POST, the URL and the
    body, a POST shortcut dispatches, as its first call, the request that
    [http.NewRequest] made with its header map replaced by the one header
    Content-Type, holding the given content type alone. *)
Theorem POST_dispatches {L : NetLib} {E : Type} {H : Host E}
    (c : Client.t) (url contentType : string) (body : list byte)
    (w : World E) (r : http_Request.t) :
  http_NewRequest "POST" url body = inl r ->
  let sent :=
    http_Request.mk
      (http_Request.Method r) (http_Request.URL r)
      (Some {[ textproto_CanonicalMIMEHeaderKey "Content-Type"
               := [contentType] ]})
      (http_Request.Body r) in
  (exists calls,
      journal (DoVariant.POST c url contentType body w).2
      = journal w ++ CallDo (Client.HTTPClient c) sent :: calls)
  /\ (exists calls,
        journal (SendRawVariant.Post c url contentType body w).2
        = journal w ++ CallDo (Client.HTTPClient c) sent :: calls).
Proof.
  intros Hn. cbv zeta. rewrite POST_is_Send, Post_is_Send.
  apply Send_dispatches_built. by apply buildRequest_post.
Qed.

Lemma POST_dispatches_witness :
  let c := DoVariant.NewClient in
  let w := Sim.boot answer_200 in
  let made := http_Request.mk "POST" "http://localhost/upload" make_map
                (text "payload") in
  let sent := http_Request.mk "POST" "http://localhost/upload"
                (Some {[ "Content-Type" := ["application/octet-stream"] ]})
                (text "payload") in
  http_NewRequest "POST" "http://localhost/upload" (text "payload") = inl made
  /\ (exists calls,
         journal (DoVariant.POST c "http://localhost/upload"
                    "application/octet-stream" (text "payload") w).2
         = journal w ++ CallDo (Client.HTTPClient c) sent :: calls).
Proof.
  cbv zeta. split; [reflexivity|].
  exact (proj1 (POST_dispatches DoVariant.NewClient "http://localhost/upload"
                  "application/octet-stream" (text "payload")
                  (Sim.boot answer_200) _ eq_refl)).
Defined.

(** X6. When [http.NewRequest] accepts the method GET and the URL, a GET
    shortcut dispatches, as its first call, the request exactly as
    [http.NewRequest] made it from the URL as given and an empty body. *)
Theorem GET_dispatches {L : NetLib} {E : Type} {H : Host E}
    (c : Client.t) (url : string) (w : World E) (r : http_Request.t) :
  http_NewRequest "GET" url [] = inl r ->
  (exists calls,
      journal (DoVariant.GET c url w).2
      = journal w ++ CallDo (Client.HTTPClient c) r :: calls)
  /\ (exists calls,
        journal (SendRawVariant.Get c url w).2
        = journal w ++ CallDo (Client.HTTPClient c) r :: calls).
Proof.
  intros Hn. rewrite GET_is_Send, Get_is_Send.
  apply Send_dispatches_built. by apply buildRequest_get.
Qed.

Lemma GET_dispatches_witness :
  let c := SendRawVariant.NewClient in
  let w := Sim.boot answer_400 in
  http_NewRequest "GET" "http://localhost" [] = inl local_request
  /\ (exists calls,
         journal (SendRawVariant.Get c "http://localhost" w).2
         = journal w ++ CallDo (Client.HTTPClient c) local_request :: calls).
Proof.
  cbv zeta. split; [reflexivity|].
  exact (proj2 (GET_dispatches SendRawVariant.NewClient "http://localhost"
                  (Sim.boot answer_400) _ eq_refl)).
Defined.

(** ** The mutators composed *)

(** X7. The last value set wins: setting a header twice is setting it to
    the second value, and [SetContentTypeJSON] is [SetContentType] with
    application/json, whichever of the two comes first. *)
Theorem mutators_last_wins {L : NetLib}
    (r : Request.t) (v1 v2 : string) :
  (DoVariant.SetContentType r v1
     ≫= (fun r1 => DoVariant.SetContentType r1 v2))
  = DoVariant.SetContentType r v2
  /\ (DoVariant.SetAuthorization r v1
        ≫= (fun r1 => DoVariant.SetAuthorization r1 v2))
     = DoVariant.SetAuthorization r v2
  /\ (DoVariant.SetContentType r v1 ≫= DoVariant.SetContentTypeJSON)
     = DoVariant.SetContentType r "application/json"
  /\ (DoVariant.SetContentTypeJSON r
        ≫= (fun r1 => DoVariant.SetContentType r1 v2))
     = DoVariant.SetContentType r v2
  /\ (SendRawVariant.SetContentType r v1
        ≫= (fun r1 => SendRawVariant.SetContentType r1 v2))
     = SendRawVariant.SetContentType r v2
  /\ (SendRawVariant.SetAuthorization r v1
        ≫= (fun r1 => SendRawVariant.SetAuthorization r1 v2))
     = SendRawVariant.SetAuthorization r v2.
Proof.
  destruct r as [meth base body [g|] prm]; cbn;
    unfold Request.with_Header; cbn; rewrite !insert_insert_eq;
    repeat split.
Qed.

(** X8. When Content-Type and Authorization have different canonical keys,
    the two headers can be set in either order with the same result. *)
Theorem mutators_commute {L : NetLib}
    (r : Request.t) (contentType token : string) :
  textproto_CanonicalMIMEHeaderKey "Content-Type"
  <> textproto_CanonicalMIMEHeaderKey "Authorization" ->
  (DoVariant.SetContentType r contentType
     ≫= (fun r1 => DoVariant.SetAuthorization r1 token))
  = (DoVariant.SetAuthorization r token
       ≫= (fun r1 => DoVariant.SetContentType r1 contentType))
  /\ (SendRawVariant.SetContentType r contentType
        ≫= (fun r1 => SendRawVariant.SetAuthorization r1 token))
     = (SendRawVariant.SetAuthorization r token
          ≫= (fun r1 => SendRawVariant.SetContentType r1 contentType)).
Proof.
  intros Hne.
  destruct r as [meth base body [g|] prm]; cbn;
    unfold Request.with_Header; cbn;
    rewrite (insert_insert_ne _ _ _ _ _ Hne); done.
Qed.

Lemma mutators_commute_witness :
  textproto_CanonicalMIMEHeaderKey "Content-Type"
  <> textproto_CanonicalMIMEHeaderKey "Authorization"
  /\ (DoVariant.SetContentType bare "text/plain"
        ≫= (fun r1 => DoVariant.SetAuthorization r1 "Bearer abc"))
     = (DoVariant.SetAuthorization bare "Bearer abc"
          ≫= (fun r1 => DoVariant.SetContentType r1 "text/plain")).
Proof.
  assert (Hne : textproto_CanonicalMIMEHeaderKey "Content-Type"
                <> textproto_CanonicalMIMEHeaderKey "Authorization")
    by (vm_compute; discriminate).
  split; [exact Hne|].
  exact (proj1 (mutators_commute bare "text/plain" "Bearer abc" Hne)).
Defined.

(** X9. After a mutator, reading a header through any spelling of the key
    with the same canonical form gives the value set; reading any other
    header gives what it gave before (the empty string when the request had
    no header map). *)
Theorem mutators_then_Get {L : NetLib}
    (r : Request.t) (value key : string) :
  let reads (run : outcome Request.t) (set : string) :=
    exists r',
      run = Done r'
      /\ Header_Get (Request.Header r') key
         = if decide (textproto_CanonicalMIMEHeaderKey key
                      = textproto_CanonicalMIMEHeaderKey set)
           then value
           else Header_Get (Request.Header r) key in
  reads (DoVariant.SetContentType r value) "Content-Type"
  /\ reads (DoVariant.SetAuthorization r value) "Authorization"
  /\ reads (SendRawVariant.SetContentType r value) "Content-Type"
  /\ reads (SendRawVariant.SetAuthorization r value) "Authorization".
Proof.
  cbv zeta.
  destruct r as [meth base body [g|] prm]; cbn;
    repeat split; eexists; (split; [reflexivity|]); cbn;
    destruct (decide _) as [->|Hne];
    rewrite ?lookup_insert_eq, ?lookup_insert_ne, ?lookup_empty; done.
Qed.

(** ** The client factory *)

(** X10. Two configurations give the same client exactly when they agree
    on every field but [IncludeRootCA]: that flag is read by nothing, and
    nothing else is lost or merged. *)
Theorem createClient_injective (cfg1 cfg2 : ClientConfig.t) :
  DoVariant.createClient cfg1 = DoVariant.createClient cfg2
  <-> ClientConfig.Timeout cfg1 = ClientConfig.Timeout cfg2
      /\ ClientConfig.DialTimeout cfg1 = ClientConfig.DialTimeout cfg2
      /\ ClientConfig.KeepAlive cfg1 = ClientConfig.KeepAlive cfg2
      /\ ClientConfig.IdleConnTimeout cfg1 = ClientConfig.IdleConnTimeout cfg2
      /\ ClientConfig.TLSHanshakeTimeout cfg1
         = ClientConfig.TLSHanshakeTimeout cfg2
      /\ ClientConfig.ExpectContinueTimeout cfg1
         = ClientConfig.ExpectContinueTimeout cfg2
      /\ ClientConfig.MaxIdleConns cfg1 = ClientConfig.MaxIdleConns cfg2
      /\ ClientConfig.SkipTLSVerify cfg1 = ClientConfig.SkipTLSVerify cfg2.
Proof.
  destruct cfg1, cfg2. unfold DoVariant.createClient. cbn. split.
  - intros [= -> -> -> -> -> -> -> ->]. repeat split.
  - intros (-> & -> & -> & -> & -> & -> & -> & ->). reflexivity.
Qed.

(** ** The error of [Close] *)

(** X11. What [Send] returns does not depend on what closing the body
    does or returns: an error of [Close] is never reported. *)
Theorem Send_result_ignores_Close {L : NetLib} {E : Type}
    (dispatch : http_Client.t -> http_Request.t -> E ->
                (option http_Response.t * option error) * E)
    (read : ReadCloser -> E -> (list byte * option error) * E)
    (write : string -> list byte -> Z -> E -> option error * E)
    (close close' : ReadCloser -> E -> option error * E)
    (c : Client.t) (request : Request.t) (w : World E) :
  let host := Build_Host E dispatch read close write in
  let host' := Build_Host E dispatch read close' write in
  (@DoVariant.Send L E host c request w).1
  = (@DoVariant.Send L E host' c request w).1
  /\ (@SendRawVariant.Send L E host c request w).1
     = (@SendRawVariant.Send L E host' c request w).1.
Proof.
  cbv zeta.
  rewrite !(@Send_unfold L E (Build_Host E dispatch read close write)),
          !(@Send_unfold L E (Build_Host E dispatch read close' write)),
          !(@Send'_unfold L E (Build_Host E dispatch read close write)),
          !(@Send'_unfold L E (Build_Host E dispatch read close' write)).
  destruct (DoVariant.buildRequest c request) as [[req|] [berr|]]; cbn;
    try done.
  rewrite !(@ext_Do E (Build_Host E dispatch read close write)),
          !(@ext_Do E (Build_Host E dispatch read close' write)). cbn.
  destruct (dispatch _ _ _) as [[[resp|] [err|]] e1]; cbn; try done.
  by destruct (read _ _) as [[body [err|]] e2].
Qed.

(** ** A download from end to end *)

Section DownloadRuns.
Context {L : NetLib} {E : Type} {H : Host E}.
Implicit Types (c : Client.t) (w : World E).

(** The world after one dispatch, one read of the body and one close. *)
Lemma journal_after_exchange c req b w :
  journal (Close b (ReadAll b (HTTPClient_Do (Client.HTTPClient c) req w).2).2).2
  = journal w ++ [CallDo (Client.HTTPClient c) req; CallReadAll b; CallClose b].
Proof.
  rewrite journal_Close, journal_ReadAll, journal_Do.
  by rewrite <- !app_assoc.
Qed.

Lemma GET_shaped c url w req resp body :
  dispatched c (DoVariant.NewRequest "GET" url []) w req (Some resp, None) ->
  body_read c w req resp (body, None) ->
  let b := http_Response.Body resp in
  let w3 :=
    (Close b (ReadAll b (HTTPClient_Do (Client.HTTPClient c) req w).2).2).2 in
  DoVariant.GET c url w = (Done (Some (shaped resp body), None), w3)
  /\ SendRawVariant.Get c url w = (Done (Some (shaped resp body), None), w3).
Proof.
  intros Hd Hr. apply dispatched_inv in Hd as [Hb Hd].
  apply body_read_inv in Hr. cbv zeta in Hr. cbv zeta.
  rewrite GET_is_Send, Get_is_Send.
  change (SendRawVariant.NewRequest "GET" url [])
    with (DoVariant.NewRequest "GET" url []).
  rewrite (Send_shaped _ _ _ _ _ _ _ _ Hb Hd Hr).
  by rewrite (Send'_shaped _ _ _ _ _ _ _ _ Hb Hd Hr).
Qed.
End DownloadRuns.

(** X12. A download whose dispatch succeeds with status 200 and whose body
    is read without error makes four calls, in this order: the dispatch,
    the read of the body, the close of the body, and one
    [ioutil.WriteFile] of exactly the bytes read to the given file name
    with mode 0644; it returns what that write returns, so an error of the
    file system is passed on as it is. *)
Theorem DownloadFile_200_end_to_end {L : NetLib} {E : Type} {H : Host E}
    (c : Client.t) (url filename : string) (w : World E)
    (req : http_Request.t) (resp : http_Response.t) (body : list byte) :
  dispatched c (DoVariant.NewRequest "GET" url []) w req (Some resp, None) ->
  body_read c w req resp (body, None) ->
  http_Response.StatusCode resp = 200 ->
  let b := http_Response.Body resp in
  let w3 :=
    (Close b (ReadAll b (HTTPClient_Do (Client.HTTPClient c) req w).2).2).2 in
  let holds (run : outcome (option error) * World E) :=
    run.1 = Done (ioutil_WriteFile filename body 420 (ext w3)).1
    /\ ext run.2 = (ioutil_WriteFile filename body 420 (ext w3)).2
    /\ journal run.2
       = journal w
         ++ [CallDo (Client.HTTPClient c) req; CallReadAll b; CallClose b;
             CallWriteFile filename body 420] in
  holds (DoVariant.DownloadFile c url filename w)
  /\ holds (SendRawVariant.DownloadFile c url filename w).
Proof.
  intros Hd Hr Hs. cbv zeta.
  destruct (GET_shaped c url w req resp body Hd Hr) as [Hg Hg'].
  cbv zeta in Hg, Hg'.
  rewrite DownloadFile_unfold, DownloadFile'_unfold, Hg, Hg'.
  cbn [shaped Response.StatusCode Response.Body]. rewrite Hs.
  destruct (decide (200 = 200)); [|done].
  rewrite journal_WriteFile, journal_after_exchange, <- app_assoc.
  unfold WriteFile, log.
  destruct (ioutil_WriteFile _ _ _ _) as [res e4]. cbn.
  repeat split.
Qed.

Lemma DownloadFile_200_end_to_end_witness :
  let c := DoVariant.NewClient in
  let w := Sim.boot answer_200 in
  let resp := http_Response.mk 200 "200 OK" plain 0%nat in
  let req := http_Request.mk "GET" "http://localhost/file" make_map [] in
  dispatched c (DoVariant.NewRequest "GET" "http://localhost/file" []) w req
    (Some resp, None)
  /\ body_read c w req resp (text "success", None)
  /\ journal (DoVariant.DownloadFile c "http://localhost/file" "out.bin" w).2
     = [CallDo (Client.HTTPClient c) req; CallReadAll 0%nat; CallClose 0%nat;
        CallWriteFile "out.bin" (text "success") 420].
Proof.
  cbv zeta.
  assert (Hd : dispatched DoVariant.NewClient
                 (DoVariant.NewRequest "GET" "http://localhost/file" [])
                 (Sim.boot answer_200)
                 (http_Request.mk "GET" "http://localhost/file" make_map [])
                 (Some (http_Response.mk 200 "200 OK" plain 0%nat), None))
    by (split; vm_compute; reflexivity).
  assert (Hr : body_read DoVariant.NewClient (Sim.boot answer_200)
                 (http_Request.mk "GET" "http://localhost/file" make_map [])
                 (http_Response.mk 200 "200 OK" plain 0%nat)
                 (text "success", None))
    by (vm_compute; reflexivity).
  split; [exact Hd|]. split; [exact Hr|].
  exact (proj2 (proj2 (proj1
           (DownloadFile_200_end_to_end DoVariant.NewClient
              "http://localhost/file" "out.bin" (Sim.boot answer_200)
              _ _ _ Hd Hr eq_refl)))).
Defined.

(** X13. A download whose dispatch succeeds with a status other than 200
    still reads the whole body and closes it, then returns an error made of
    the status text (after the words "download failed: " in src/xhttp.go,
    alone in the file of src/Makefile); the bytes read are dropped and no
    file is written. *)
Theorem DownloadFile_other_status_end_to_end
    {L : NetLib} {E : Type} {H : Host E}
    (c : Client.t) (url filename : string) (w : World E)
    (req : http_Request.t) (resp : http_Response.t) (body : list byte) :
  dispatched c (DoVariant.NewRequest "GET" url []) w req (Some resp, None) ->
  body_read c w req resp (body, None) ->
  http_Response.StatusCode resp <> 200 ->
  let b := http_Response.Body resp in
  let w3 :=
    (Close b (ReadAll b (HTTPClient_Do (Client.HTTPClient c) req w).2).2).2 in
  DoVariant.DownloadFile c url filename w
  = (Done (Some ("download failed: " +:+ http_Response.Status resp)), w3)
  /\ SendRawVariant.DownloadFile c url filename w
     = (Done (Some (http_Response.Status resp)), w3)
  /\ journal w3
     = journal w
       ++ [CallDo (Client.HTTPClient c) req; CallReadAll b; CallClose b].
Proof.
  intros Hd Hr Hs. cbv zeta.
  destruct (GET_shaped c url w req resp body Hd Hr) as [Hg Hg'].
  cbv zeta in Hg, Hg'.
  rewrite DownloadFile_unfold, DownloadFile'_unfold, Hg, Hg'.
  cbn [shaped Response.StatusCode Response.Status].
  destruct (decide _); [done|].
  by rewrite journal_after_exchange.
Qed.

Lemma DownloadFile_other_status_end_to_end_witness :
  let c := DoVariant.NewClient in
  let w := Sim.boot answer_500 in
  let resp := http_Response.mk 500 "500 Internal Server Error" plain 0%nat in
  let req := http_Request.mk "GET" "http://localhost/file" make_map [] in
  dispatched c (DoVariant.NewRequest "GET" "http://localhost/file" []) w req
    (Some resp, None)
  /\ body_read c w req resp (text "internal server error", None)
  /\ http_Response.StatusCode resp <> 200
  /\ (SendRawVariant.DownloadFile c "http://localhost/file" "out.bin" w).1
     = Done (Some "500 Internal Server Error").
Proof.
  cbv zeta.
  assert (Hd : dispatched DoVariant.NewClient
                 (DoVariant.NewRequest "GET" "http://localhost/file" [])
                 (Sim.boot answer_500)
                 (http_Request.mk "GET" "http://localhost/file" make_map [])
                 (Some (http_Response.mk 500 "500 Internal Server Error"
                          plain 0%nat), None))
    by (split; vm_compute; reflexivity).
  assert (Hr : body_read DoVariant.NewClient (Sim.boot answer_500)
                 (http_Request.mk "GET" "http://localhost/file" make_map [])
                 (http_Response.mk 500 "500 Internal Server Error" plain 0%nat)
                 (text "internal server error", None))
    by (vm_compute; reflexivity).
  assert (Hs : http_Response.StatusCode
                 (http_Response.mk 500 "500 Internal Server Error" plain 0%nat)
               <> 200) by (cbn; lia).
  split; [exact Hd|]. split; [exact Hr|]. split; [exact Hs|].
  exact (f_equal fst (proj1 (proj2
           (DownloadFile_other_status_end_to_end DoVariant.NewClient
              "http://localhost/file" "out.bin" (Sim.boot answer_500)
              _ _ _ Hd Hr Hs)))).
Defined.

(** X14. A download whose body cannot be read to its end returns the error
    of the read, whatever the status code, 200 included, and writes no
    file. *)
Theorem DownloadFile_read_error {L : NetLib} {E : Type} {H : Host E}
    (c : Client.t) (url filename : string) (w : World E)
    (req : http_Request.t) (resp : http_Response.t) (body : list byte)
    (err : error) :
  dispatched c (DoVariant.NewRequest "GET" url []) w req (Some resp, None) ->
  body_read c w req resp (body, Some err) ->
  let holds (run : outcome (option error) * World E) :=
    run.1 = Done (Some err) /\ writes (journal run.2) = writes (journal w) in
  holds (DoVariant.DownloadFile c url filename w)
  /\ holds (SendRawVariant.DownloadFile c url filename w).
Proof.
  intros Hd Hr. cbv zeta.
  destruct (Send_read_error_result _ _ _ _ _ _ _ Hd Hr) as [Hg Hg'].
  destruct (Send_writes_nothing c (DoVariant.NewRequest "GET" url []) w)
    as [Hw Hw'].
  rewrite DownloadFile_unfold, DownloadFile'_unfold, GET_is_Send, Get_is_Send.
  change (SendRawVariant.NewRequest "GET" url [])
    with (DoVariant.NewRequest "GET" url []).
  destruct (DoVariant.Send c _ w) as [o1 w1].
  destruct (SendRawVariant.Send c _ w) as [o2 w2].
  cbn in Hg, Hg', Hw, Hw'. by subst o1 o2.
Qed.

Lemma DownloadFile_read_error_witness :
  let c := DoVariant.NewClient in
  let w := Sim.boot broken_body in
  let resp := http_Response.mk 200 "200 OK" plain 0%nat in
  dispatched c (DoVariant.NewRequest "GET" "http://localhost" []) w
    local_request (Some resp, None)
  /\ body_read c w local_request resp (text "succ", Some "unexpected EOF")
  /\ (DoVariant.DownloadFile c "http://localhost" "out.bin" w).1
     = Done (Some "unexpected EOF")
  /\ writes (journal (DoVariant.DownloadFile c "http://localhost" "out.bin" w).2)
     = writes (journal w).
Proof.
  cbv zeta.
  assert (Hd : dispatched DoVariant.NewClient
                 (DoVariant.NewRequest "GET" "http://localhost" [])
                 (Sim.boot broken_body) local_request
                 (Some (http_Response.mk 200 "200 OK" plain 0%nat), None))
    by (split; vm_compute; reflexivity).
  assert (Hr : body_read DoVariant.NewClient (Sim.boot broken_body)
                 local_request (http_Response.mk 200 "200 OK" plain 0%nat)
                 (text "succ", Some "unexpected EOF"))
    by (vm_compute; reflexivity).
  split; [exact Hd|]. split; [exact Hr|].
  exact (proj1 (DownloadFile_read_error DoVariant.NewClient "http://localhost"
                  "out.bin" (Sim.boot broken_body) _ _ _ _ Hd Hr)).
Defined.

(** X15. When [http.NewRequest] rejects the URL, a download returns that
    error and calls nothing: no dispatch and no write. *)
Theorem DownloadFile_build_error {L : NetLib} {E : Type} {H : Host E}
    (c : Client.t) (url filename : string) (w : World E) (err : error) :
  http_NewRequest "GET" url [] = inr err ->
  DoVariant.DownloadFile c url filename w = (Done (Some err), w)
  /\ SendRawVariant.DownloadFile c url filename w = (Done (Some err), w).
Proof.
  intros Hn.
  assert (Hb : DoVariant.buildRequest c (DoVariant.NewRequest "GET" url [])
               = (None, Some err)).
  { rewrite buildRequest_unfold.
    unfold request_url, DoVariant.NewRequest, make_map.
    cbn [Request.Param Request.BaseURL Request.Method Request.Body
         Request.Header len].
    rewrite map_size_empty.
    destruct (decide (0%nat = 0%nat)); [|done]. by rewrite Hn. }
  rewrite DownloadFile_unfold, DownloadFile'_unfold, GET_is_Send, Get_is_Send.
  change (SendRawVariant.NewRequest "GET" url [])
    with (DoVariant.NewRequest "GET" url []).
  rewrite (Send_build_error _ _ _ _ _ Hb).
  by rewrite (Send'_build_error _ _ _ _ _ Hb).
Qed.

Lemma DownloadFile_build_error_witness :
  let url := String "127"%char "http://localhost" in
  let w := Sim.boot answer_200 in
  http_NewRequest "GET" url [] = inr "net/url: invalid control character in URL"
  /\ DoVariant.DownloadFile DoVariant.NewClient url "out.bin" w
     = (Done (Some "net/url: invalid control character in URL"), w).
Proof.
  cbv zeta. split; [reflexivity|].
  exact (proj1 (DownloadFile_build_error DoVariant.NewClient
                  (String "127"%char "http://localhost") "out.bin"
                  (Sim.boot answer_200) _ eq_refl)).
Defined.

(** X16. When the dispatch returns an error, a download returns that error;
    it reads no body and writes no file. *)
Theorem DownloadFile_dispatch_error {L : NetLib} {E : Type} {H : Host E}
    (c : Client.t) (url filename : string) (w : World E)
    (req : http_Request.t) (oresp : option http_Response.t) (err : error) :
  dispatched c (DoVariant.NewRequest "GET" url []) w req (oresp, Some err) ->
  let holds (run : outcome (option error) * World E) :=
    run.1 = Done (Some err)
    /\ writes (journal run.2) = writes (journal w)
    /\ forall b, CallReadAll b ∉ drop (length (journal w)) (journal run.2) in
  holds (DoVariant.DownloadFile c url filename w)
  /\ holds (SendRawVariant.DownloadFile c url filename w).
Proof.
  intros Hd. cbv zeta. apply dispatched_inv in Hd as [Hb Hd].
  rewrite DownloadFile_unfold, DownloadFile'_unfold, GET_is_Send, Get_is_Send.
  change (SendRawVariant.NewRequest "GET" url [])
    with (DoVariant.NewRequest "GET" url []).
  rewrite (Send_dispatch_error _ _ _ _ _ _ _ Hb Hd).
  rewrite (Send'_dispatch_error _ _ _ _ _ _ _ Hb Hd). cbn.
  destruct oresp as [resp|]; cbn;
    rewrite ?journal_Close, !journal_Do, <- ?app_assoc, !drop_app_length;
    unfold writes; rewrite !omap_app; cbn; rewrite ?app_nil_r;
    repeat split; try done;
    intros b Hin; repeat (apply elem_of_cons in Hin as [Hin|Hin]; [done|]);
    by apply elem_of_nil in Hin.
Qed.

Lemma DownloadFile_dispatch_error_witness :
  let c := SendRawVariant.NewClient in
  let w := Sim.boot [] in
  dispatched c (DoVariant.NewRequest "GET" "http://localhost" []) w
    local_request (None, Some "dial tcp: connection refused")
  /\ (SendRawVariant.DownloadFile c "http://localhost" "out.bin" w).1
     = Done (Some "dial tcp: connection refused").
Proof.
  cbv zeta.
  assert (Hd : dispatched SendRawVariant.NewClient
                 (DoVariant.NewRequest "GET" "http://localhost" [])
                 (Sim.boot []) local_request
                 (None, Some "dial tcp: connection refused"))
    by (split; vm_compute; reflexivity).
  split; [exact Hd|].
  exact (proj1 (proj2 (DownloadFile_dispatch_error SendRawVariant.NewClient
                         "http://localhost" "out.bin" (Sim.boot []) _ _ _ Hd))).
Defined.

(** X17. A download writes at most one file: either it writes nothing, or
    its one write is to the file name given, with mode 0644. *)
Theorem DownloadFile_writes_at_most_once {L : NetLib} {E : Type} {H : Host E}
    (c : Client.t) (url filename : string) (w : World E) :
  let holds (run : outcome (option error) * World E) :=
    writes (journal run.2) = writes (journal w)
    \/ exists body,
         writes (journal run.2) = writes (journal w) ++ [(filename, body, 420)] in
  holds (DoVariant.DownloadFile c url filename w)
  /\ holds (SendRawVariant.DownloadFile c url filename w).
Proof.
  cbv zeta.
  destruct (Send_writes_nothing c (DoVariant.NewRequest "GET" url []) w)
    as [Hw Hw'].
  rewrite DownloadFile_unfold, DownloadFile'_unfold, GET_is_Send, Get_is_Send.
  change (SendRawVariant.NewRequest "GET" url [])
    with (DoVariant.NewRequest "GET" url []).
  destruct (DoVariant.Send c _ w) as [[[[r1|] [e1|]]|why1] w1];
    destruct (SendRawVariant.Send c _ w) as [[[[r2|] [e2|]]|why2] w2];
    cbn in Hw, Hw'; cbn;
    repeat match goal with
      | |- context [decide ?P] => destruct (decide P)
      end;
    rewrite ?writes_WriteFile, ?Hw, ?Hw'; split; eauto.
Qed.
